(** * ExposureGraph risk calculator: a shallow embedding of
      [src/scoring/calculator.py] and of the two result models of
      [src/graph/models.py], with the properties of the scoring contract.

    Conventions of the embedding.
    - A Python [str] is a [string]; a character is read as a code point
      below 256, and [str.lower] is its restriction to these.  The regex
      [VERSION_PATTERN] is embedded twice: on code points of any size, with
      the class [\d] of the interpreter's Unicode database as a
      parameter ([ReU]), and on the characters of a [string] ([Re]), where
      [\d] comes down to 0-9; the second is shown to be the first on the
      code points of the string.
    - A Python [int] is a [Z].
    - [str | None] and [list[str] | None] are [option]s; an attribute or
      an iteration on [None] raises, as does a pydantic model whose field
      constraint fails.  Fallible code lives in the [result] monad.
    - A [dict] iterated with [.items()] is an association list in insertion
      order.
    - [logger.debug] only formats its arguments and is left out. *)

From Stdlib Require Import ZArith List Bool Ascii String Lia.
Import ListNotations.

Local Open Scope string_scope.
Local Open Scope Z_scope.

(* ===================================================================== *)
(** ** Exceptions *)
(* ===================================================================== *)

Inductive exn : Type :=
| AttributeError   (* attribute looked up on None *)
| TypeError        (* None where a str or an iterable is required *)
| ValidationError. (* pydantic field constraint violated *)

Inductive result (A : Type) : Type :=
| Ok (a : A)
| Raise (e : exn).

Arguments Ok {A} a.
Arguments Raise {A} e.

Definition bind {A B : Type} (c : result A) (k : A -> result B) : result B :=
  match c with
  | Ok a => k a
  | Raise e => Raise e
  end.

Notation "x <- c ;; k" := (bind c (fun x => k))
  (at level 61, c at next level, right associativity).

(* ===================================================================== *)
(** ** Python primitives used by the calculator *)
(* ===================================================================== *)

(** Truth value testing ([bool(x)], the test of an [if]). *)
Class Truthy (A : Type) : Type := truthy : A -> bool.

#[global] Instance Truthy_str : Truthy string :=
  fun s => match s with EmptyString => false | String _ _ => true end.

#[global] Instance Truthy_list {A : Type} : Truthy (list A) :=
  fun l => match l with [] => false | _ :: _ => true end.

(** [None] is false; anything else answers for itself. *)
#[global] Instance Truthy_option {A : Type} `{Truthy A} : Truthy (option A) :=
  fun o => match o with None => false | Some a => truthy a end.

(** A 2-tuple is never empty, hence always true. *)
#[global] Instance Truthy_pair {A B : Type} : Truthy (A * B) :=
  fun _ => true.

Module PyStr.

(** [c.lower()] on one code point below 256: A-Z, and the Latin-1
    capitals U+00C0..U+00DE except the multiplication sign U+00D7. *)
Definition lower_char (c : ascii) : ascii :=
  let n := nat_of_ascii c in
  if (((65 <=? n) && (n <=? 90))
      || ((192 <=? n) && (n <=? 222) && negb (n =? 215)))%nat
  then ascii_of_nat (n + 32)
  else c.

(** [s.lower()] *)
Fixpoint lower (s : string) : string :=
  match s with
  | EmptyString => EmptyString
  | String c rest => String (lower_char c) (lower rest)
  end.

(** [s.startswith(p)] *)
Definition startswith (s p : string) : bool := String.prefix p s.

(** [needle in haystack] *)
Fixpoint contains (needle haystack : string) : bool :=
  if String.prefix needle haystack then true
  else match haystack with
       | EmptyString => false
       | String _ rest => contains needle rest
       end.

(** [o.lower()] where [o] may be [None]. *)
Definition lower_of (o : option string) : result string :=
  match o with
  | Some s => Ok (lower s)
  | None => Raise AttributeError
  end.

(** The value interpolated by an f-string field [{o}]. *)
Definition fmt (o : option string) : string :=
  match o with
  | Some s => s
  | None => "None"
  end.

End PyStr.

(** [l.append(x)] *)
Definition append {A : Type} (l : list A) (x : A) : list A := (l ++ [x])%list.

(** [for x in o] where [o] may be [None]. *)
Definition iter {A : Type} (o : option (list A)) : result (list A) :=
  match o with
  | Some l => Ok l
  | None => Raise TypeError
  end.

(* ===================================================================== *)
(** ** The regular expression [VERSION_PATTERN = /\d+[\.\d]*] *)
(* ===================================================================== *)

Module Re.

(** [\d] on a character of a [string]: below code point 256 the decimal
    digits of Unicode are 0-9 and no others. *)
Definition is_digit (c : ascii) : bool :=
  ((48 <=? nat_of_ascii c) && (nat_of_ascii c <=? 57))%nat.

(** [[\.\d]] *)
Definition is_dot_or_digit (c : ascii) : bool :=
  Ascii.eqb c "." || is_digit c.

(** A greedy run of a character class: the run and what follows it. *)
Fixpoint span (p : ascii -> bool) (s : string) : string * string :=
  match s with
  | EmptyString => (EmptyString, EmptyString)
  | String c rest =>
      if p c then let (run, tail) := span p rest in (String c run, tail)
      else (EmptyString, s)
  end.

(** The pattern anchored at the start of [s]; the matched text.  Both
    repetitions are greedy and nothing follows the star, so the first
    attempt is the match and no backtracking takes place. *)
Definition match_here (s : string) : option string :=
  match s with
  | String c rest =>
      if Ascii.eqb c "/" then
        let (digits, rest') := span is_digit rest in
        match digits with
        | EmptyString => None
        | String _ _ =>
            let (more, _) := span is_dot_or_digit rest' in
            Some ("/" ++ digits ++ more)
        end
      else None
  | EmptyString => None
  end.

(** [VERSION_PATTERN.search(s)]: the leftmost match, as its text. *)
Fixpoint search (s : string) : option string :=
  match match_here s with
  | Some m => Some m
  | None => match s with
            | EmptyString => None
            | String _ rest => search rest
            end
  end.

(** A match object is always true. *)
Definition bool_of_match (m : option string) : bool :=
  match m with Some _ => true | None => false end.

End Re.

(** The same pattern on a [str] of any code points.  The class [\d] of a
    [str] pattern is the Unicode category Nd as the interpreter's database
    has it; it comes in as [is_decimal]. *)
Module ReU.

(** The code points of a [string]. *)
Definition codepoints (s : string) : list N :=
  map N_of_ascii (list_ascii_of_string s).

Definition is_slash (c : N) : bool := (c =? 47)%N.

Definition is_dot (c : N) : bool := (c =? 46)%N.

Section Pattern.

Variable is_decimal : N -> bool.

(** [[\.\d]] *)
Definition is_dot_or_decimal (c : N) : bool := is_dot c || is_decimal c.

(** A greedy run of a character class: the run and what follows it. *)
Fixpoint span (p : N -> bool) (s : list N) : list N * list N :=
  match s with
  | [] => ([], [])
  | c :: rest =>
      if p c then let (run, tail) := span p rest in (c :: run, tail)
      else ([], s)
  end.

(** The pattern anchored at the start of [s]; the matched text. *)
Definition match_here (s : list N) : option (list N) :=
  match s with
  | c :: rest =>
      if is_slash c then
        let (digits, rest') := span is_decimal rest in
        match digits with
        | [] => None
        | _ :: _ =>
            let (more, _) := span is_dot_or_decimal rest' in
            Some (c :: digits ++ more)%list
        end
      else None
  | [] => None
  end.

(** [VERSION_PATTERN.search(s)]: the leftmost match, as its text. *)
Fixpoint search (s : list N) : option (list N) :=
  match match_here s with
  | Some m => Some m
  | None => match s with
            | [] => None
            | _ :: rest => search rest
            end
  end.

(** A match object is always true. *)
Definition bool_of_match (m : option (list N)) : bool :=
  match m with Some _ => true | None => false end.

(** [RiskCalculator._has_version] *)
Definition _has_version (server_header : option (list N)) : result bool :=
  match server_header with
  | Some s => Ok (bool_of_match (search s))
  | None => Raise TypeError
  end.

(** The test of rule 3:
    [webservice.server and self._has_version(webservice.server)]. *)
Definition version_rule (server : option (list N)) : result bool :=
  if truthy server then _has_version server else Ok false.

End Pattern.

End ReU.

(* ===================================================================== *)
(** ** Models ([src/graph/models.py]) *)
(* ===================================================================== *)

Record RiskFactor : Type := mkRiskFactor {
  name : string;
  contribution : Z;
  explanation : string
}.

Record RiskResult : Type := mkRiskResult {
  score : Z;
  factors : list RiskFactor
}.

(** [RiskResult(score=..., factors=...)]: the field [score] is declared
    with [ge=0, le=100], checked when the model is built. *)
Definition new_RiskResult (score : Z) (factors : list RiskFactor)
  : result RiskResult :=
  if (0 <=? score) && (score <=? 100)
  then Ok (mkRiskResult score factors)
  else Raise ValidationError.

(* ===================================================================== *)
(** ** The calculator ([src/scoring/calculator.py]) *)
(* ===================================================================== *)

Definition OUTDATED_TECHNOLOGIES : list (string * string) :=
  [ ("php/5", "PHP 5.x is end-of-life since January 2019");
    ("php/7.0", "PHP 7.0 is end-of-life since December 2018");
    ("php/7.1", "PHP 7.1 is end-of-life since December 2019");
    ("php/7.2", "PHP 7.2 is end-of-life since November 2020");
    ("apache/2.2", "Apache 2.2.x is end-of-life since July 2017");
    ("nginx/1.1", "Nginx 1.1x is significantly outdated");
    ("nginx/1.0", "Nginx 1.0x is significantly outdated");
    ("openssl/1.0", "OpenSSL 1.0.x is end-of-life since December 2019");
    ("jquery/1.", "jQuery 1.x has known security vulnerabilities");
    ("jquery/2.", "jQuery 2.x has known security vulnerabilities");
    ("angular/1.", "AngularJS 1.x is end-of-life since December 2021");
    ("node/8", "Node.js 8 is end-of-life since December 2019");
    ("node/10", "Node.js 10 is end-of-life since April 2021");
    ("node/12", "Node.js 12 is end-of-life since April 2022");
    ("python/2", "Python 2 is end-of-life since January 2020");
    ("tomcat/7", "Apache Tomcat 7 is end-of-life");
    ("tomcat/8.0", "Apache Tomcat 8.0 is end-of-life");
    ("iis/6", "IIS 6 is end-of-life");
    ("iis/7", "IIS 7 is end-of-life") ].

Definition NON_PROD_INDICATORS : list string :=
  ["staging"; "dev"; "test"; "uat"; "sandbox"; "demo"; "qa"; "preprod"].

Definition VERSION_PATTERN_search : string -> option string := Re.search.

Record WebServiceData : Type := mkWebServiceData {
  url : string;
  status_code : Z;
  title : option string;
  server : option string;
  technologies : option (list string)
}.

Record RiskCalculator : Type := mkRiskCalculator {
  _outdated_tech : list (string * string);
  _non_prod_indicators : list string
}.

Definition BASE_SCORE : Z := 20.

(** [RiskCalculator()] *)
Definition __init__ : RiskCalculator :=
  {| _outdated_tech := OUTDATED_TECHNOLOGIES;
     _non_prod_indicators := NON_PROD_INDICATORS |}.

(** The loop [for indicator in ...: if indicator in url_lower: return
    indicator], falling through to [None]. *)
Fixpoint first_indicator (indicators : list string) (url_lower : string)
  : option string :=
  match indicators with
  | [] => None
  | indicator :: rest =>
      if PyStr.contains indicator url_lower then Some indicator
      else first_indicator rest url_lower
  end.

Definition _check_non_production (self : RiskCalculator) (url : string)
  : option string :=
  let url_lower := PyStr.lower url in
  first_indicator (_non_prod_indicators self) url_lower.

Definition _has_version (self : RiskCalculator) (server_header : option string)
  : result bool :=
  match server_header with
  | Some s => Ok (Re.bool_of_match (VERSION_PATTERN_search s))
  | None => Raise TypeError
  end.

(** The loop [for pattern, reason in table.items(): if pattern in text:
    return ...]; the entry it stops at, if any. *)
Fixpoint first_pattern (table : list (string * string)) (text_lower : string)
  : option (string * string) :=
  match table with
  | [] => None
  | (pattern, reason) :: rest =>
      if PyStr.contains pattern text_lower then Some (pattern, reason)
      else first_pattern rest text_lower
  end.

(** The loop over [webservice.technologies], with its inner loop over the
    table; a hit returns the entry [tech] as it was given. *)
Fixpoint scan_technologies (table : list (string * string))
    (techs : list string) : option (string * string) :=
  match techs with
  | [] => None
  | tech :: rest =>
      let tech_lower := PyStr.lower tech in
      match first_pattern table tech_lower with
      | Some (pattern, reason) => Some (tech, reason)
      | None => scan_technologies table rest
      end
  end.

Definition _check_outdated_tech (self : RiskCalculator)
    (webservice : WebServiceData) : result (option (string * string)) :=
  (* Check server header *)
  in_server <-
    (if truthy (server webservice) then
       server_lower <- PyStr.lower_of (server webservice) ;;
       Ok (first_pattern (_outdated_tech self) server_lower)
     else Ok None) ;;
  match in_server with
  | Some (pattern, reason) => Ok (Some (pattern, reason))
  | None =>
      (* Check technologies list *)
      if truthy (technologies webservice) then
        techs <- iter (technologies webservice) ;;
        Ok (scan_technologies (_outdated_tech self) techs)
      else Ok None
  end.

Definition calculate_score (self : RiskCalculator)
    (webservice : WebServiceData) : result RiskResult :=
  let factors : list RiskFactor := [] in
  let score := BASE_SCORE in
  (* Factor 1: Live service (+30) *)
  let '(factors, score) :=
    if status_code webservice =? 200 then
      (append factors
         (mkRiskFactor "Live Service" 30
            "Service responds with HTTP 200, confirming it is live and accessible"),
       score + 30)
    else (factors, score) in
  (* Factor 2: Non-production exposed (+15) *)
  let non_prod_match := _check_non_production self (url webservice) in
  let '(factors, score) :=
    if truthy non_prod_match then
      (append factors
         (mkRiskFactor "Non-Production Exposed" 15
            ("URL contains '" ++ PyStr.fmt non_prod_match
               ++ "', indicating a non-production "
               ++ "environment exposed to the internet")),
       score + 15)
    else (factors, score) in
  (* Factor 3: Version disclosure (+10) *)
  discloses <-
    (if truthy (server webservice)
     then _has_version self (server webservice)
     else Ok false) ;;
  let '(factors, score) :=
    if discloses then
      (append factors
         (mkRiskFactor "Version Disclosure" 10
            ("Server header '" ++ PyStr.fmt (server webservice)
               ++ "' reveals version information, "
               ++ "aiding attackers in finding known vulnerabilities")),
       score + 10)
    else (factors, score) in
  (* Factor 4: Outdated technology (+20) *)
  outdated <- _check_outdated_tech self webservice ;;
  let '(factors, score) :=
    match outdated with
    | Some (tech_name, reason) =>
        (append factors
           (mkRiskFactor "Outdated Technology" 20
              ("Detected '" ++ tech_name ++ "': " ++ reason)),
         score + 20)
    | None => (factors, score)
    end in
  (* Factor 5: No HTTPS (+15) *)
  let '(factors, score) :=
    if PyStr.startswith (url webservice) "http://" then
      (append factors
         (mkRiskFactor "No HTTPS" 15
            ("Service uses unencrypted HTTP, exposing data in transit to "
               ++ "interception and tampering")),
       score + 15)
    else (factors, score) in
  (* Factor 6: Directory listing (+10) *)
  listing <-
    (if truthy (title webservice) then
       title_lower <- PyStr.lower_of (title webservice) ;;
       Ok (PyStr.contains "index of" title_lower)
     else Ok false) ;;
  let '(factors, score) :=
    if listing then
      (append factors
         (mkRiskFactor "Directory Listing" 10
            ("Page title suggests directory listing is enabled, potentially "
               ++ "exposing sensitive files and structure")),
       score + 10)
    else (factors, score) in
  (* Cap score at 100 *)
  let final_score := Z.min score 100 in
  new_RiskResult final_score factors.

(* ===================================================================== *)
(** ** The rule set, read off the six guarded blocks of [calculate_score] *)
(* ===================================================================== *)

Inductive rule : Type :=
| LiveService
| NonProductionExposed
| VersionDisclosure
| OutdatedTechnology
| NoHTTPS
| DirectoryListing.

(** Evaluation order. *)
Definition all_rules : list rule :=
  [LiveService; NonProductionExposed; VersionDisclosure;
   OutdatedTechnology; NoHTTPS; DirectoryListing].

Definition rule_name (r : rule) : string :=
  match r with
  | LiveService => "Live Service"
  | NonProductionExposed => "Non-Production Exposed"
  | VersionDisclosure => "Version Disclosure"
  | OutdatedTechnology => "Outdated Technology"
  | NoHTTPS => "No HTTPS"
  | DirectoryListing => "Directory Listing"
  end.

Definition points (r : rule) : Z :=
  match r with
  | LiveService => 30
  | NonProductionExposed => 15
  | VersionDisclosure => 10
  | OutdatedTechnology => 20
  | NoHTTPS => 15
  | DirectoryListing => 10
  end.

(** The value of [_check_outdated_tech] once its guards are known to
    protect every access. *)
Definition outdated_match (self : RiskCalculator) (w : WebServiceData)
  : option (string * string) :=
  let in_server :=
    match server w with
    | Some s => if truthy s then first_pattern (_outdated_tech self) (PyStr.lower s)
                else None
    | None => None
    end in
  match in_server with
  | Some hit => Some hit
  | None =>
      match technologies w with
      | Some techs => scan_technologies (_outdated_tech self) techs
      | None => None
      end
  end.

(** The guard of each block. *)
Definition fires (self : RiskCalculator) (w : WebServiceData) (r : rule)
  : bool :=
  match r with
  | LiveService => status_code w =? 200
  | NonProductionExposed => truthy (_check_non_production self (url w))
  | VersionDisclosure =>
      match server w with
      | Some s => truthy s && Re.bool_of_match (VERSION_PATTERN_search s)
      | None => false
      end
  | OutdatedTechnology =>
      match outdated_match self w with Some _ => true | None => false end
  | NoHTTPS => PyStr.startswith (url w) "http://"
  | DirectoryListing =>
      match title w with
      | Some t => truthy t && PyStr.contains "index of" (PyStr.lower t)
      | None => false
      end
  end.

(** The factor each block appends. *)
Definition factor_of (self : RiskCalculator) (w : WebServiceData) (r : rule)
  : RiskFactor :=
  mkRiskFactor (rule_name r) (points r)
    match r with
    | LiveService =>
        "Service responds with HTTP 200, confirming it is live and accessible"
    | NonProductionExposed =>
        "URL contains '" ++ PyStr.fmt (_check_non_production self (url w))
          ++ "', indicating a non-production environment exposed to the internet"
    | VersionDisclosure =>
        "Server header '" ++ PyStr.fmt (server w)
          ++ "' reveals version information, aiding attackers in finding known vulnerabilities"
    | OutdatedTechnology =>
        match outdated_match self w with
        | Some (tech_name, reason) => "Detected '" ++ tech_name ++ "': " ++ reason
        | None => ""
        end
    | NoHTTPS =>
        "Service uses unencrypted HTTP, exposing data in transit to interception and tampering"
    | DirectoryListing =>
        "Page title suggests directory listing is enabled, potentially exposing sensitive files and structure"
    end.

Definition fired (self : RiskCalculator) (w : WebServiceData) : list rule :=
  filter (fires self w) all_rules.

(** [sum(f.contribution for f in factors)] *)
Definition sum_contributions (fs : list RiskFactor) : Z :=
  fold_right (fun f acc => contribution f + acc) 0 fs.

Definition sum_points (rs : list rule) : Z :=
  fold_right (fun r acc => points r + acc) 0 rs.

(** A factor with the given name is in the result. *)
Definition has_factor (n : string) (r : RiskResult) : bool :=
  existsb (fun f => String.eqb (name f) n) (factors r).

(** How many factors of the result carry the given name. *)
Definition count_factor (n : string) (r : RiskResult) : nat :=
  List.length (filter (fun f => String.eqb (name f) n) (factors r)).

(* ===================================================================== *)
(** ** Vocabulary of the contract *)
(* ===================================================================== *)

(** The signal [w] with its technologies field set to [techs]. *)
Definition with_technologies (w : WebServiceData)
    (techs : option (list string)) : WebServiceData :=
  {| url := url w; status_code := status_code w; title := title w;
     server := server w; technologies := techs |}.

(** *** The outdated-technology matcher *)

(** [entry] is the first entry of [table], in table order, whose pattern
    occurs in [text]. *)
Definition first_hit (table : list (string * string)) (text : string)
    (entry : string * string) : Prop :=
  exists before after,
    table = (before ++ entry :: after)%list
    /\ PyStr.contains (fst entry) text = true
    /\ Forall (fun e => PyStr.contains (fst e) text = false) before.

(** No pattern of [table] occurs in [text]. *)
Definition no_hit (table : list (string * string)) (text : string) : Prop :=
  Forall (fun e => PyStr.contains (fst e) text = false) table.

(** The server field yields no match: it is absent, empty, or no pattern
    occurs in its lowercase form. *)
Definition server_silent (table : list (string * string))
    (w : WebServiceData) : Prop :=
  match server w with
  | Some s => s = "" \/ no_hit table (PyStr.lower s)
  | None => True
  end.

Definition technologies_silent (table : list (string * string))
    (w : WebServiceData) : Prop :=
  match technologies w with
  | Some techs => Forall (fun t => no_hit table (PyStr.lower t)) techs
  | None => True
  end.

(** The matcher as the contract words it: the server first, by the first
    pattern in table order; failing that the first technologies entry, in
    sequence order, that some pattern matches; failing that nothing. *)
Inductive outdated_verdict (table : list (string * string))
    (w : WebServiceData) : option (string * string) -> Prop :=
| verdict_server (s pattern reason : string) :
    server w = Some s -> s <> "" ->
    first_hit table (PyStr.lower s) (pattern, reason) ->
    outdated_verdict table w (Some (pattern, reason))
| verdict_technology (earlier later : list string)
    (tech pattern reason : string) :
    server_silent table w ->
    technologies w = Some (earlier ++ tech :: later)%list ->
    Forall (fun t => no_hit table (PyStr.lower t)) earlier ->
    first_hit table (PyStr.lower tech) (pattern, reason) ->
    outdated_verdict table w (Some (tech, reason))
| verdict_none :
    server_silent table w -> technologies_silent table w ->
    outdated_verdict table w None.

(** What the server field alone yields. *)
Definition server_match (table : list (string * string))
    (w : WebServiceData) : option (string * string) :=
  match server w with
  | Some s => if truthy s then first_pattern table (PyStr.lower s) else None
  | None => None
  end.

(** *** Version texts *)

(** On the characters of a [string], where a digit is one of 0-9. *)
Fixpoint all_digits (s : string) : bool :=
  match s with
  | EmptyString => true
  | String c rest => Re.is_digit c && all_digits rest
  end.

(** A number: one or more digits. *)
Definition number (n : string) : Prop := n <> "" /\ all_digits n = true.

(** Further digits, each group set off by a dot. *)
Inductive dotted_digits : string -> Prop :=
| dotted_end : dotted_digits ""
| dotted_more (ds rest : string) :
    number ds -> dotted_digits rest -> dotted_digits ("." ++ ds ++ rest).

(** A slash followed by a number, optionally with dot-separated further
    digits. *)
Definition version_text (v : string) : Prop :=
  exists n tail, v = "/" ++ n ++ tail /\ number n /\ dotted_digits tail.

(** The header contains such a text. *)
Definition discloses_version (s : string) : Prop :=
  exists before v after, s = before ++ v ++ after /\ version_text v.

(** A slash immediately followed by a digit occurs in [s]. *)
Definition slash_digit (s : string) : Prop :=
  exists before d after,
    s = before ++ String "/" (String d after) /\ Re.is_digit d = true.

(** The same on code points of any size, a digit being any decimal digit
    of Unicode. *)
Section VersionTextsU.

Variable is_decimal : N -> bool.

(** A number: one or more decimal digits. *)
Definition unumber (n : list N) : Prop :=
  n <> [] /\ forallb is_decimal n = true.

(** Further digits, each group set off by a dot. *)
Inductive udotted_digits : list N -> Prop :=
| udotted_end : udotted_digits []
| udotted_more (ds rest : list N) :
    unumber ds -> udotted_digits rest ->
    udotted_digits (46%N :: ds ++ rest)%list.

(** A slash followed by a number, optionally with dot-separated further
    digits. *)
Definition uversion_text (v : list N) : Prop :=
  exists n tail,
    v = (47%N :: n ++ tail)%list /\ unumber n /\ udotted_digits tail.

(** The text contains such a version. *)
Definition udiscloses_version (s : list N) : Prop :=
  exists before v after,
    s = (before ++ v ++ after)%list /\ uversion_text v.

(** A slash immediately followed by a decimal digit occurs in [s]. *)
Definition uslash_digit (s : list N) : Prop :=
  exists before d after,
    s = (before ++ 47%N :: d :: after)%list /\ is_decimal d = true.

End VersionTextsU.

(** The digits 0-9. *)
Definition is_ascii_digit (c : N) : bool := ((48 <=? c) && (c <=? 57))%N.

(** The decimal digits of Unicode 14.0 (category Nd, the class [\d] of a
    [str] pattern), by the code point of each zero; every run holds ten
    digits. *)
Definition decimal_zeros_14 : list N :=
  [48; 1632; 1776; 1984; 2406; 2534; 2662; 2790; 2918; 3046; 3174; 3302;
   3430; 3558; 3664; 3792; 3872; 4160; 4240; 6112; 6160; 6470; 6608; 6784;
   6800; 6992; 7088; 7232; 7248; 42528; 43216; 43264; 43472; 43504; 43600;
   44016; 65296; 66720; 68912; 69734; 69872; 69942; 70096; 70384; 70736;
   70864; 71248; 71360; 71472; 71904; 72016; 72784; 73040; 73120; 92768;
   92864; 93008; 120782; 120792; 120802; 120812; 120822; 123200; 123632;
   125264; 130032]%N.

Definition is_decimal_14 (c : N) : bool :=
  existsb (fun zero => ((zero <=? c) && (c <=? zero + 9))%N) decimal_zeros_14.

(** A server header in Arabic-Indic digits: [nginx/] and U+0661 U+0662. *)
Definition arabic_indic_banner : list N :=
  (ReU.codepoints "nginx/" ++ [1633; 1634])%list%N.

(** *** One more rule *)

(** Rule [R] triggered in the evaluation that produced [r]. *)
Definition triggered (R : rule) (r : RiskResult) : bool :=
  has_factor (rule_name R) r.

(** [r'] comes from a signal on which exactly one more rule triggers than
    on the signal of [r], namely [R]; every other rule stands as it was. *)
Definition adds_exactly (R : rule) (r r' : RiskResult) : Prop :=
  triggered R r = false
  /\ triggered R r' = true
  /\ forall R', R' <> R -> triggered R' r' = triggered R' r.

(** The cap is active on a result: base and contributions reach 100. *)
Definition cap_active (r : RiskResult) : Prop :=
  100 <= BASE_SCORE + sum_contributions (factors r).

(* ===================================================================== *)
(** ** Signals used as examples *)
(* ===================================================================== *)

(** The no-trigger baseline of the contract. *)
Definition clean_signal : WebServiceData :=
  mkWebServiceData "https://clean.example.com" 404 None None (Some []).

(** The worked example of the contract. *)
Definition staging_signal : WebServiceData :=
  {| url := "http://staging.example.com"; status_code := 200;
     title := None; server := Some "nginx/1.0.5"; technologies := None |}.

(** The factors the contract lists for it. *)
Definition staging_factors : list RiskFactor :=
  [ mkRiskFactor "Live Service" 30
      "Service responds with HTTP 200, confirming it is live and accessible";
    mkRiskFactor "Non-Production Exposed" 15
      "URL contains 'staging', indicating a non-production environment exposed to the internet";
    mkRiskFactor "Version Disclosure" 10
      "Server header 'nginx/1.0.5' reveals version information, aiding attackers in finding known vulnerabilities";
    mkRiskFactor "Outdated Technology" 20
      "Detected 'nginx/1.0': Nginx 1.0x is significantly outdated";
    mkRiskFactor "No HTTPS" 15
      "Service uses unencrypted HTTP, exposing data in transit to interception and tampering" ].

(** The same service behind TLS. *)
Definition staging_https : WebServiceData :=
  {| url := "https://staging.example.com"; status_code := 200;
     title := None; server := Some "nginx/1.0.5"; technologies := None |}.

(** Its result: the factors above but the last, No HTTPS. *)
Definition staging_https_result : RiskResult :=
  {| score := 95; factors := removelast staging_factors |}.

Definition staging_result : RiskResult :=
  {| score := 100; factors := staging_factors |}.

(** Two signatures in one header, and a third in the technologies. *)
Definition two_banners : WebServiceData :=
  {| url := "https://www.example.com"; status_code := 301; title := None;
     server := Some "Apache/2.2.3 (PHP/7.2.1)";
     technologies := Some ["IIS/6.0"] |}.

(** Two signatures in successive technologies entries. *)
Definition two_libraries : WebServiceData :=
  {| url := "https://www.example.com"; status_code := 301; title := None;
     server := Some "cloudflare";
     technologies := Some ["React"; "jQuery/1.12"; "PHP/5.6"] |}.

(** Version texts everywhere but in the server header. *)
Definition version_elsewhere : WebServiceData :=
  {| url := "https://example.com/v/2.0"; status_code := 200;
     title := Some "Release /3.1"; server := Some "nginx";
     technologies := Some ["nginx/1.18.0"; "Apache/2"] |}.

(* ===================================================================== *)
(** ** Further Python primitives: whitespace, split and join, dicts *)
(* ===================================================================== *)

(** [bool(n)] for an [int]. *)
#[global] Instance Truthy_int : Truthy Z := fun n => negb (n =? 0).

(** [x or None] *)
Definition or_none {A : Type} `{Truthy A} (x : A) : option A :=
  if truthy x then Some x else None.

Module PyText.

(** [c.isspace()] on a code point below 256: TAB..CR, FS..US, space, NEL
    and the no-break space. *)
Definition is_space (c : ascii) : bool :=
  let n := nat_of_ascii c in
  (((9 <=? n) && (n <=? 13)) || ((28 <=? n) && (n <=? 32))
   || (n =? 133) || (n =? 160))%nat.

(** [s.lstrip()] *)
Fixpoint lstrip (s : string) : string :=
  match s with
  | EmptyString => EmptyString
  | String c rest => if is_space c then lstrip rest else s
  end.

(** [s.rstrip()] *)
Fixpoint rstrip (s : string) : string :=
  match s with
  | EmptyString => EmptyString
  | String c rest =>
      match rstrip rest with
      | EmptyString => if is_space c then EmptyString else String c EmptyString
      | String _ _ as kept => String c kept
      end
  end.

(** [s.strip()] *)
Definition strip (s : string) : string := rstrip (lstrip s).

(** [s.split(sep)] for a one-character separator; never the empty list. *)
Fixpoint split (sep : ascii) (s : string) : list string :=
  match s with
  | EmptyString => [EmptyString]
  | String c rest =>
      if Ascii.eqb c sep then EmptyString :: split sep rest
      else match split sep rest with
           | piece :: pieces => String c piece :: pieces
           | [] => [String c EmptyString]
           end
  end.

(** [sep.join(l)] *)
Definition join (sep : string) (l : list string) : string :=
  String.concat sep l.

(** [c in s] for a single character. *)
Fixpoint mem_char (c : ascii) (s : string) : bool :=
  match s with
  | EmptyString => false
  | String d rest => Ascii.eqb d c || mem_char c rest
  end.

End PyText.

Local Unset Elimination Schemes.

(** The values that travel in the dicts of this code: [None], bools, ints,
    strings, lists and dicts.  A [float] is not among them: float
    arithmetic is not modelled, and nothing below is about float values. *)
Inductive pyval : Type :=
| VNone
| VBool (b : bool)
| VStr (s : string)
| VInt (n : Z)
| VList (items : list pyval)
| VDict (entries : list (string * pyval)).

Local Set Elimination Schemes.

(** What the dict-handling code can raise: a builtin exception, or a
    [KeyError] carrying the missing key. *)
Inductive raised : Type :=
| Raised (e : exn)
| KeyError (key : string).

Module PyDict.

(** A dict as its items in insertion order. *)
Definition dict (V : Type) : Type := list (string * V).

(** [d.get(k)], [None] when the key is missing. *)
Fixpoint get {V : Type} (d : dict V) (k : string) : option V :=
  match d with
  | [] => None
  | (k', v) :: rest => if String.eqb k' k then Some v else get rest k
  end.

(** [d[k]] *)
Definition item {V : Type} (d : dict V) (k : string) : raised + V :=
  match get d k with
  | Some v => inr v
  | None => inl (KeyError k)
  end.

(** [d.get(k, default)] *)
Definition get_default {V : Type} (d : dict V) (k : string) (default : V) : V :=
  match get d k with
  | Some v => v
  | None => default
  end.

(** [d[k] = v]: an existing key keeps its place, a new one goes last. *)
Fixpoint set {V : Type} (d : dict V) (k : string) (v : V) : dict V :=
  match d with
  | [] => [(k, v)]
  | (k', v') :: rest =>
      if String.eqb k' k then (k', v) :: rest else (k', v') :: set rest k v
  end.

(** [d.keys()], [d.values()] *)
Definition keys {V : Type} (d : dict V) : list string := map fst d.
Definition values {V : Type} (d : dict V) : list V := map snd d.

End PyDict.

(** The dict comprehension [{"name": f.name, "contribution":
    f.contribution, "explanation": f.explanation}], written out in
    [run_scan.py], [mcp/server.py] and [seed_demo.py]. *)
Definition factor_dict (f : RiskFactor) : PyDict.dict pyval :=
  [ ("name", VStr (name f));
    ("contribution", VInt (contribution f));
    ("explanation", VStr (explanation f)) ].

(* ===================================================================== *)
(** ** [WebService] ([src/graph/models.py]) *)
(* ===================================================================== *)

Module GraphModels.

(** A validated [WebService]; [discovered_at] as seconds since the epoch. *)
Record WebService : Type := mkWebService {
  url : string;
  status_code : Z;
  title : option string;
  server : option string;
  technologies : list string;
  risk_score : option Z;
  risk_factors : option string;
  discovered_at : Z
}.

End GraphModels.

(* ===================================================================== *)
(** ** The MCP tools ([src/mcp/server.py]) *)
(* ===================================================================== *)

Module McpServer.

(** [get_risk_calculator()]: the calculator and the new value of the
    global [_risk_calculator]. *)
Definition get_risk_calculator (_risk_calculator : option RiskCalculator)
  : RiskCalculator * option RiskCalculator :=
  match _risk_calculator with
  | None => let created := __init__ in (created, Some created)
  | Some calc => (calc, Some calc)
  end.

Definition classify_risk (score : Z) : string :=
  if score >=? 80 then "critical"
  else if score >=? 60 then "high"
  else if score >=? 40 then "medium"
  else "low".

(** [[t.strip() for t in technologies.split(",") if t.strip()]
    if technologies else []] *)
Definition tech_list (technologies : string) : list string :=
  if truthy technologies then
    map PyText.strip
      (filter (fun t => truthy (PyText.strip t))
         (PyText.split "," technologies))
  else [].

(** What a tool hands to [json.dumps]: its payload, or the dict
    [{"error": str(e)}] of the [except] branch. *)
Inductive tool_reply : Type :=
| Reply (payload : pyval)
| ErrorReply (e : exn).

Definition calculate_risk_score (_risk_calculator : option RiskCalculator)
    (url : string) (status_code : Z) (server title technologies : string)
  : tool_reply * option RiskCalculator :=
  let (calc, _risk_calculator) := get_risk_calculator _risk_calculator in
  let tech_list := tech_list technologies in
  let data :=
    {| url := url;
       status_code := status_code;
       server := or_none server;
       title := or_none title;
       technologies := or_none tech_list |} in
  match calculate_score calc data with
  | Ok result =>
      let output :=
        VDict [ ("url", VStr url);
                ("risk_score", VInt (score result));
                ("risk_level", VStr (classify_risk (score result)));
                ("factors",
                 VList (map (fun f => VDict (factor_dict f))
                          (factors result))) ] in
      (Reply output, _risk_calculator)
  | Raise e => (ErrorReply e, _risk_calculator)
  end.

(** The ["risk_level"] entry of [get_risky_assets]:
    [classify_risk(svc.risk_score) if svc.risk_score else "unknown"].  The
    test has already excluded [None] where the score is classified. *)
Definition asset_risk_level (svc : GraphModels.WebService) : string :=
  if truthy (GraphModels.risk_score svc) then
    match GraphModels.risk_score svc with
    | Some score => classify_risk score
    | None => "unknown"
    end
  else "unknown".

(** The tally of [get_risk_overview] over the services the graph returned:
    the distribution, the total score and the number of scored services.
    The asset counts, the rounded average and the serialisation are not
    part of it. *)
Fixpoint tally (services : list GraphModels.WebService)
    (distribution : PyDict.dict Z) (total_score : Z)
  : raised + (PyDict.dict Z * Z) :=
  match services with
  | [] => inr (distribution, total_score)
  | svc :: rest =>
      match GraphModels.risk_score svc with
      | Some score =>
          match PyDict.item distribution (classify_risk score) with
          | inr n =>
              tally rest
                (PyDict.set distribution (classify_risk score) (n + 1))
                (total_score + score)
          | inl e => inl e
          end
      | None => tally rest distribution total_score
      end
  end.

Definition get_risk_overview_tally (services : list GraphModels.WebService)
  : raised + (PyDict.dict Z * Z * nat) :=
  let distribution := [("critical", 0); ("high", 0); ("medium", 0); ("low", 0)] in
  let total_score := 0 in
  match tally services distribution total_score with
  | inr (distribution, total_score) =>
      let scored_count :=
        List.length
          (filter (fun s => match GraphModels.risk_score s with
                            | Some _ => true
                            | None => false
                            end) services) in
      inr (distribution, total_score, scored_count)
  | inl e => inl e
  end.

End McpServer.

(* ===================================================================== *)
(** ** The dashboard helpers ([src/ui/app.py]) *)
(* ===================================================================== *)

Module UiApp.

Definition get_risk_level (score : option Z) : string * string :=
  match score with
  | None => ("Unknown", "#6c757d")
  | Some score =>
      if score >=? 70 then ("Critical", "#dc3545")
      else if score >=? 50 then ("High", "#fd7e14")
      else if score >=? 30 then ("Medium", "#ffc107")
      else ("Low", "#28a745")
  end.

(** The loop of [get_risk_distribution]. *)
Fixpoint count_levels (services : list GraphModels.WebService)
    (distribution : PyDict.dict Z) : raised + PyDict.dict Z :=
  match services with
  | [] => inr distribution
  | svc :: rest =>
      let (level, _) := get_risk_level (GraphModels.risk_score svc) in
      match PyDict.item distribution level with
      | inr n => count_levels rest (PyDict.set distribution level (n + 1))
      | inl e => inl e
      end
  end.

Definition get_risk_distribution (services : list GraphModels.WebService)
  : raised + PyDict.dict Z :=
  let distribution :=
    [("Critical", 0); ("High", 0); ("Medium", 0); ("Low", 0); ("Unknown", 0)] in
  count_levels services distribution.

(** The inner loop of [get_technology_counts]. *)
Fixpoint count_techs (techs : list string) (tech_counts : PyDict.dict Z)
  : PyDict.dict Z :=
  match techs with
  | [] => tech_counts
  | tech :: rest =>
      let tech_name := PyText.strip tech in
      if truthy tech_name then
        count_techs rest
          (PyDict.set tech_counts tech_name
             (PyDict.get_default tech_counts tech_name 0 + 1))
      else count_techs rest tech_counts
  end.

(** The outer loop. *)
Fixpoint count_services (services : list GraphModels.WebService)
    (tech_counts : PyDict.dict Z) : PyDict.dict Z :=
  match services with
  | [] => tech_counts
  | svc :: rest =>
      count_services rest (count_techs (GraphModels.technologies svc) tech_counts)
  end.

Definition get_technology_counts (services : list GraphModels.WebService)
  : PyDict.dict Z :=
  let tech_counts := [] in
  count_services services tech_counts.

End UiApp.

(* ===================================================================== *)
(** ** The demo seeder ([scripts/seed_demo.py]) *)
(* ===================================================================== *)

Module SeedDemo.

(** [sum(f["contribution"] for f in factors)], from the accumulator on.
    A bool is an int (1 or 0); [None], a string, a list or a dict cannot be
    added to an int. *)
Fixpoint sum_contribution_items (factors : list (PyDict.dict pyval))
    (acc : Z) : raised + Z :=
  match factors with
  | [] => inr acc
  | f :: rest =>
      match PyDict.item f "contribution" with
      | inr (VInt n) => sum_contribution_items rest (acc + n)
      | inr (VBool b) => sum_contribution_items rest (acc + Z.b2z b)
      | inr (VNone | VStr _ | VList _ | VDict _) => inl (Raised TypeError)
      | inl e => inl e
      end
  end.

Definition calculate_score_from_factors (factors : list (PyDict.dict pyval))
  : raised + Z :=
  let base_score := 20 in
  match sum_contribution_items factors 0 with
  | inr s => let total := base_score + s in inr (Z.min total 100)
  | inl e => inl e
  end.

End SeedDemo.

(* ===================================================================== *)
(** ** Settings ([config.py]) and target validation
       ([scripts/run_scan.py]) *)
(* ===================================================================== *)

Module Config.

Record Settings : Type := mkSettings {
  neo4j_uri : string;
  neo4j_user : string;
  neo4j_password : string;
  ollama_host : string;
  ollama_model : string;
  allowed_targets : list string;
  log_level : string;
  mock_llm : bool
}.

(** The defaults, before the environment overrides any of them. *)
Definition default_settings : Settings :=
  {| neo4j_uri := "bolt://localhost:7687";
     neo4j_user := "neo4j";
     neo4j_password := "";
     ollama_host := "http://localhost:11434";
     ollama_model := "llama3.1:8b";
     allowed_targets := ["scanme.sh"; "example.com"];
     log_level := "INFO";
     mock_llm := false |}.

(** [x in l] on strings. *)
Definition str_in (x : string) (l : list string) : bool :=
  existsb (fun y => String.eqb x y) l.

Definition is_target_allowed (self : Settings) (target : string) : bool :=
  str_in (PyStr.lower target) (map PyStr.lower (allowed_targets self)).

End Config.

Module RunScan.

Definition newline : string := String "010"%char EmptyString.

(** [validate_target], on the settings [get_settings()] returns; the left
    side carries the message of the [typer.BadParameter] raised. *)
Definition validate_target (settings : Config.Settings) (target : string)
  : string + unit :=
  if negb (Config.is_target_allowed settings target) then
    let allowed := PyText.join ", " (Config.allowed_targets settings) in
    inl ("Target '" ++ target ++ "' is not in allowed list." ++ newline
         ++ "Allowed targets: " ++ allowed ++ newline
         ++ "Add targets via ALLOWED_TARGETS environment variable.")
  else inr tt.

(** The [factors_dict] comprehension of [scan]. *)
Definition factors_dict (result : RiskResult) : list (PyDict.dict pyval) :=
  map factor_dict (factors result).

End RunScan.

(* ===================================================================== *)
(** ** Vocabulary for the further properties *)
(* ===================================================================== *)

(** [l1] is [l2] with some entries left out, order kept. *)
Fixpoint is_subsequence (l1 l2 : list string) : bool :=
  match l1, l2 with
  | [], _ => true
  | _ :: _, [] => false
  | x :: l1', y :: l2' =>
      if String.eqb x y then is_subsequence l1' l2'
      else is_subsequence l1 l2'
  end.

(** [entry] is the first indicator of [indicators], in list order, that
    occurs in [text]. *)
Definition first_indicator_hit (indicators : list string) (text : string)
    (entry : string) : Prop :=
  exists before after,
    indicators = (before ++ entry :: after)%list
    /\ PyStr.contains entry text = true
    /\ Forall (fun i => PyStr.contains i text = false) before.

(** The severity levels, lowest first. *)
Definition level_rank (level : string) : Z :=
  if String.eqb level "critical" then 3
  else if String.eqb level "high" then 2
  else if String.eqb level "medium" then 1
  else 0.

(** A technologies entry as [tech_list] leaves it: not empty, no
    whitespace at either end, no comma. *)
Definition clean_entry (t : string) : Prop :=
  t <> "" /\ PyText.strip t = t /\ PyText.mem_char "," t = false.

(** [sum(d.values())] *)
Definition sum_values (d : PyDict.dict Z) : Z :=
  fold_right Z.add 0 (PyDict.values d).

(** How many services the dashboard puts at [level]. *)
Definition count_level (level : string)
    (services : list GraphModels.WebService) : nat :=
  List.length
    (filter (fun svc =>
               String.eqb
                 (fst (UiApp.get_risk_level (GraphModels.risk_score svc)))
                 level)
       services).

(** The scores of the services that have one. *)
Definition scores_of (services : list GraphModels.WebService) : list Z :=
  flat_map (fun svc => match GraphModels.risk_score svc with
                       | Some score => [score]
                       | None => []
                       end) services.

(** How many of the scores the MCP server puts at [level]. *)
Definition count_classified (level : string) (scores : list Z) : nat :=
  List.length
    (filter (fun score => String.eqb (McpServer.classify_risk score) level)
       scores).

(** How many entries of [techs] are named [name] once stripped, blank
    entries not counting. *)
Definition occurrences (name : string) (techs : list string) : nat :=
  List.length
    (filter (fun t => truthy (PyText.strip t)
                      && String.eqb (PyText.strip t) name) techs).

(** The pieces of a list joined by a comma and a space. *)
Definition pad_rest (l : list string) : list string :=
  match l with
  | [] => []
  | t :: rest => t :: map (fun p => String " " p) rest
  end.

(* ===================================================================== *)
(** ** Running the calculator *)
(* ===================================================================== *)

Lemma Ok_inj {A : Type} (a b : A) : Ok a = Ok b -> a = b.
Proof. intros H. injection H as H. exact H. Qed.

Lemma points_pos (r : rule) : 0 < points r.
Proof. destruct r; reflexivity. Qed.

Lemma sum_points_nonneg (rs : list rule) : 0 <= sum_points rs.
Proof.
  induction rs as [|r rs IH]; cbn [sum_points fold_right].
  - lia.
  - fold (sum_points rs). pose proof (points_pos r). lia.
Qed.

Lemma rule_name_inj (r1 r2 : rule) : rule_name r1 = rule_name r2 -> r1 = r2.
Proof. destruct r1, r2; intros H; try reflexivity; discriminate H. Qed.

(** Case analysis on which of the six rules fire. *)
Ltac case_fires self w :=
  destruct (fires self w LiveService), (fires self w NonProductionExposed),
    (fires self w VersionDisclosure), (fires self w OutdatedTechnology),
    (fires self w NoHTTPS), (fires self w DirectoryListing).

Section Run.

Variable self : RiskCalculator.
Variable w : WebServiceData.

(** The guards protect every access that could raise. *)
Lemma guarded_has_version :
  (if truthy (server w) then _has_version self (server w) else Ok false)
  = Ok (fires self w VersionDisclosure).
Proof.
  unfold fires, _has_version.
  destruct (server w) as [[|c s]|]; reflexivity.
Qed.

Lemma guarded_listing :
  (if truthy (title w) then
     title_lower <- PyStr.lower_of (title w) ;;
     Ok (PyStr.contains "index of" title_lower)
   else Ok false)
  = Ok (fires self w DirectoryListing).
Proof.
  unfold fires.
  destruct (title w) as [[|c t]|]; reflexivity.
Qed.

Lemma _check_outdated_tech_run :
  _check_outdated_tech self w = Ok (outdated_match self w).
Proof.
  unfold _check_outdated_tech, outdated_match.
  destruct (server w) as [[|c s]|];
    cbn [truthy Truthy_option Truthy_str bind PyStr.lower_of].
  2: destruct (first_pattern _ _) as [[pattern reason]|]; [reflexivity|].
  all: destruct (technologies w) as [[|tech techs]|]; reflexivity.
Qed.

(** The result of every call, in closed form: the accumulated score never
    leaves the range the model of [RiskResult] accepts. *)
Lemma calculate_score_run :
  calculate_score self w
  = Ok (mkRiskResult (Z.min (BASE_SCORE + sum_points (fired self w)) 100)
          (map (factor_of self w) (fired self w))).
Proof.
  unfold calculate_score.
  rewrite guarded_has_version, _check_outdated_tech_run, guarded_listing.
  unfold fired, all_rules, factor_of, append, BASE_SCORE.
  cbn [filter bind rule_name points].
  cbn [fires].
  destruct (status_code w =? 200);
    destruct (truthy (_check_non_production self (url w)));
    destruct (match server w with Some s => _ | None => false end);
    destruct (outdated_match self w) as [[tech_name reason]|];
    destruct (PyStr.startswith (url w) "http://");
    destruct (match title w with Some t => _ | None => false end);
    reflexivity.
Qed.

Lemma name_factor_of (r : rule) : name (factor_of self w r) = rule_name r.
Proof. reflexivity. Qed.

Lemma sum_contributions_factor_of (rs : list rule) :
  sum_contributions (map (factor_of self w) rs) = sum_points rs.
Proof.
  induction rs as [|r rs IH]; cbn [map sum_contributions sum_points fold_right].
  - reflexivity.
  - fold (sum_contributions (map (factor_of self w) rs)).
    fold (sum_points rs). rewrite IH. reflexivity.
Qed.

Lemma has_factor_run (sc : Z) (r : rule) :
  has_factor (rule_name r)
    (mkRiskResult sc (map (factor_of self w) (fired self w)))
  = fires self w r.
Proof.
  unfold has_factor, fired, all_rules. cbn [factors filter].
  destruct r; case_fires self w; reflexivity.
Qed.

Lemma count_factor_run (sc : Z) (r : rule) :
  count_factor (rule_name r)
    (mkRiskResult sc (map (factor_of self w) (fired self w)))
  = if fires self w r then 1%nat else 0%nat.
Proof.
  unfold count_factor, fired, all_rules. cbn [factors filter].
  destruct r; case_fires self w; reflexivity.
Qed.

Lemma contribution_of_named (rs : list rule) (r : rule) (f : RiskFactor) :
  In f (map (factor_of self w) rs) -> name f = rule_name r ->
  contribution f = points r.
Proof.
  intros Hin Hname. apply in_map_iff in Hin. destruct Hin as (r' & <- & _).
  rewrite name_factor_of in Hname. apply rule_name_inj in Hname.
  subst r'. reflexivity.
Qed.

Lemma fired_nil_iff :
  fired self w = [] <-> forall r, fires self w r = false.
Proof.
  unfold fired. split.
  - intros Hnil r. destruct (fires self w r) eqn:Hr; [|reflexivity].
    assert (Hin : In r (filter (fires self w) all_rules)).
    { apply filter_In. split; [|exact Hr].
      destruct r; cbn; tauto. }
    rewrite Hnil in Hin. destruct Hin.
  - intros Hall. unfold all_rules. cbn [filter].
    rewrite !Hall. reflexivity.
Qed.

End Run.

Lemma outdated_match_unfold (self : RiskCalculator) (w : WebServiceData) :
  outdated_match self w
  = match server_match (_outdated_tech self) w with
    | Some hit => Some hit
    | None => match technologies w with
              | Some techs => scan_technologies (_outdated_tech self) techs
              | None => None
              end
    end.
Proof. reflexivity. Qed.

(* ===================================================================== *)
(** ** Score combination *)
(* ===================================================================== *)

(** C1. For every signal the call returns a result whose score is
    [min(100, 20 + sum of the contributions of the returned factors)], the
    cap being taken once over the whole sum; the score lies between 20 and
    100; the factor list is empty exactly when no rule triggers, and then
    the score is 20. *)
Theorem calculate_score_sum_capped (self : RiskCalculator)
    (w : WebServiceData) :
  exists r,
    calculate_score self w = Ok r
    /\ score r = Z.min 100 (20 + sum_contributions (factors r))
    /\ 20 <= score r <= 100
    /\ (factors r = [] <-> forall rl, fires self w rl = false)
    /\ ((forall rl, fires self w rl = false) ->
        factors r = [] /\ score r = 20).
Proof.
  eexists. split; [apply calculate_score_run|].
  cbn [score factors]. rewrite sum_contributions_factor_of.
  pose proof (sum_points_nonneg (fired self w)) as Hpos.
  unfold BASE_SCORE.
  assert (Hnil : map (factor_of self w) (fired self w) = []
                 <-> forall rl, fires self w rl = false).
  { rewrite <- fired_nil_iff. split.
    - intros H. destruct (fired self w); [reflexivity|discriminate H].
    - intros ->. reflexivity. }
  split; [lia|]. split; [lia|]. split; [exact Hnil|].
  intros Hnone. split; [apply Hnil, Hnone|].
  apply fired_nil_iff in Hnone. rewrite Hnone. reflexivity.
Qed.

Lemma calculate_score_sum_capped_witness :
  exists r,
    calculate_score __init__ clean_signal = Ok r
    /\ factors r = [] /\ score r = 20.
Proof.
  destruct (calculate_score_sum_capped __init__ clean_signal)
    as (r & Hrun & _ & _ & _ & Hbase).
  exists r. split; [exact Hrun|].
  apply Hbase. intros rl. destruct rl; reflexivity.
Defined.

(* ===================================================================== *)
(** ** Totality *)
(* ===================================================================== *)

(** C3. The call returns a result for every signal, whatever combination
    of absent, empty or filled title, server and technologies it carries.
    An absent or empty title keeps Directory Listing out; an absent or
    empty server keeps Version Disclosure out and leaves the matcher to the
    technologies alone; absent or empty technologies leave the matcher to
    the server alone; Outdated Technology stays out when both are absent
    or empty. *)
Theorem calculate_score_total (self : RiskCalculator) (w : WebServiceData) :
  exists r,
    calculate_score self w = Ok r
    /\ (title w = None \/ title w = Some "" ->
        has_factor "Directory Listing" r = false)
    /\ (server w = None \/ server w = Some "" ->
        has_factor "Version Disclosure" r = false
        /\ _check_outdated_tech self w
           = Ok match technologies w with
                | Some techs => scan_technologies (_outdated_tech self) techs
                | None => None
                end)
    /\ (technologies w = None \/ technologies w = Some [] ->
        _check_outdated_tech self w = Ok (server_match (_outdated_tech self) w))
    /\ (server w = None \/ server w = Some "" ->
        technologies w = None \/ technologies w = Some [] ->
        has_factor "Outdated Technology" r = false).
Proof.
  eexists. split; [apply calculate_score_run|].
  rewrite (has_factor_run self w _ DirectoryListing),
    (has_factor_run self w _ VersionDisclosure),
    (has_factor_run self w _ OutdatedTechnology),
    _check_outdated_tech_run, outdated_match_unfold.
  cbn [fires]. rewrite outdated_match_unfold. unfold server_match.
  split; [|split; [|split]].
  - intros [-> | ->]; reflexivity.
  - intros [-> | ->]; split; reflexivity.
  - destruct (match server w with Some s => _ | None => None end);
      intros [H | H]; try rewrite H; reflexivity.
  - intros [-> | ->] [-> | ->]; reflexivity.
Qed.

Lemma calculate_score_total_witness :
  exists r,
    calculate_score __init__
      (mkWebServiceData "http://test.example.com" 200 (Some "") None (Some []))
      = Ok r
    /\ has_factor "Directory Listing" r = false
    /\ has_factor "Version Disclosure" r = false
    /\ has_factor "Outdated Technology" r = false.
Proof.
  destruct (calculate_score_total __init__
              (mkWebServiceData "http://test.example.com" 200 (Some "") None
                 (Some [])))
    as (r & Hrun & Htitle & Hserver & _ & Houtdated).
  exists r. split; [exact Hrun|]. split; [|split].
  - apply Htitle. right. reflexivity.
  - apply Hserver. left. reflexivity.
  - apply Houtdated; [left|right]; reflexivity.
Defined.

(** C10. A signal whose technologies are [None] is scored exactly like the
    same signal with an empty technologies list, and both calls return. *)
Theorem calculate_score_technologies_none_as_empty (self : RiskCalculator)
    (w : WebServiceData) :
  exists r,
    calculate_score self (with_technologies w None) = Ok r
    /\ calculate_score self (with_technologies w (Some [])) = Ok r.
Proof.
  eexists. split; [apply calculate_score_run|].
  rewrite calculate_score_run. destruct w as [u c t s l]. reflexivity.
Qed.

(* ===================================================================== *)
(** ** The worked example of the contract *)
(* ===================================================================== *)

(** C9. On [http://staging.example.com], status 200, server [nginx/1.0.5],
    the factors are Live Service (+30), Non-Production Exposed (+15),
    Version Disclosure (+10), Outdated Technology (+20, on the pattern
    [nginx/1.0]) and No HTTPS (+15), in this order and no others; their sum
    with the base is 110 and the returned score is 100. *)
Theorem calculate_score_staging_example :
  calculate_score __init__ staging_signal
  = Ok {| score := 100; factors := staging_factors |}
  /\ map name staging_factors
     = ["Live Service"; "Non-Production Exposed"; "Version Disclosure";
        "Outdated Technology"; "No HTTPS"]
  /\ map contribution staging_factors = [30; 15; 10; 20; 15]
  /\ List.length staging_factors = 5%nat
  /\ _check_outdated_tech __init__ staging_signal
     = Ok (Some ("nginx/1.0", "Nginx 1.0x is significantly outdated"))
  /\ BASE_SCORE + sum_contributions staging_factors = 110.
Proof. repeat split; vm_compute; reflexivity. Qed.

(* ===================================================================== *)
(** ** No HTTPS *)
(* ===================================================================== *)

Lemma prefix_app (p rest : string) : String.prefix p (p ++ rest) = true.
Proof.
  induction p as [|c p IH]; cbn.
  - destruct rest; reflexivity.
  - destruct (ascii_dec c c) as [_|Hne]; [exact IH|contradiction].
Qed.

Lemma prefix_split (p s : string) :
  String.prefix p s = true -> exists rest, s = p ++ rest.
Proof.
  revert s. induction p as [|c p IH]; intros s H.
  - exists s. reflexivity.
  - destruct s as [|d s]; cbn in H; [discriminate H|].
    destruct (ascii_dec c d) as [->|_]; [|discriminate H].
    destruct (IH s H) as (rest & ->). exists rest. reflexivity.
Qed.

Lemma startswith_iff (s p : string) :
  PyStr.startswith s p = true <-> exists rest, s = p ++ rest.
Proof.
  unfold PyStr.startswith. split.
  - apply prefix_split.
  - intros (rest & ->). apply prefix_app.
Qed.

(** C5. No HTTPS, worth 15, is among the factors exactly when the url
    starts with the literal [http://]; a url starting with [HTTP://] or
    with [https://] never has it. *)
Theorem no_https_iff_literal_prefix (self : RiskCalculator)
    (w : WebServiceData) :
  exists r,
    calculate_score self w = Ok r
    /\ (has_factor "No HTTPS" r = true <->
        exists rest, url w = "http://" ++ rest)
    /\ (forall f, In f (factors r) -> name f = "No HTTPS" ->
        contribution f = 15)
    /\ (forall rest, url w = "HTTP://" ++ rest ->
        has_factor "No HTTPS" r = false)
    /\ (forall rest, url w = "https://" ++ rest ->
        has_factor "No HTTPS" r = false).
Proof.
  eexists. split; [apply calculate_score_run|].
  rewrite (has_factor_run self w _ NoHTTPS). cbn [fires factors].
  split; [apply startswith_iff|]. split; [|split].
  - intros f Hin Hname.
    apply (contribution_of_named self w _ NoHTTPS f Hin Hname).
  - intros rest ->. reflexivity.
  - intros rest ->. reflexivity.
Qed.

Lemma no_https_iff_literal_prefix_witness :
  exists r,
    calculate_score __init__
      (mkWebServiceData "HTTP://insecure.example.com" 200 None None None)
      = Ok r
    /\ has_factor "No HTTPS" r = false.
Proof.
  destruct (no_https_iff_literal_prefix __init__
              (mkWebServiceData "HTTP://insecure.example.com" 200 None None
                 None))
    as (r & Hrun & _ & _ & Hupper & _).
  exists r. split; [exact Hrun|].
  apply (Hupper "insecure.example.com"). reflexivity.
Defined.

(* ===================================================================== *)
(** ** The outdated-technology matcher *)
(* ===================================================================== *)

Lemma first_pattern_hit (table : list (string * string)) (text : string)
    (entry : string * string) :
  first_pattern table text = Some entry <-> first_hit table text entry.
Proof.
  induction table as [|[p why] table IH]; cbn [first_pattern].
  - split; [discriminate|].
    intros (before & after & Heq & _). destruct before; discriminate Heq.
  - destruct (PyStr.contains p text) eqn:Hp.
    + split.
      * intros [= <-]. exists [], table. repeat split; [exact Hp|constructor].
      * intros (before & after & Heq & _ & Hmiss).
        destruct before as [|b before]; cbn in Heq.
        -- injection Heq as <- _. reflexivity.
        -- injection Heq as <- _. inversion Hmiss as [|? ? Hb _]; subst.
           cbn in Hb. congruence.
    + rewrite IH. split.
      * intros (before & after & -> & Hin & Hmiss).
        exists ((p, why) :: before), after.
        repeat split; [exact Hin|]. constructor; [exact Hp|exact Hmiss].
      * intros (before & after & Heq & Hin & Hmiss).
        destruct before as [|b before]; cbn in Heq.
        -- injection Heq as <- _. cbn in Hin. congruence.
        -- injection Heq as _ ->. inversion Hmiss; subst.
           exists before, after. repeat split; assumption.
Qed.

Lemma first_pattern_no_hit (table : list (string * string)) (text : string) :
  first_pattern table text = None <-> no_hit table text.
Proof.
  unfold no_hit.
  induction table as [|[p why] table IH]; cbn [first_pattern].
  - split; [constructor|reflexivity].
  - destruct (PyStr.contains p text) eqn:Hp.
    + split; [discriminate|].
      intros H. inversion H as [|? ? Hhd _]; subst. cbn in Hhd. congruence.
    + rewrite IH. split.
      * intros H. constructor; [exact Hp|exact H].
      * intros H. inversion H; assumption.
Qed.

Lemma scan_technologies_hit (table : list (string * string))
    (techs : list string) (text why : string) :
  scan_technologies table techs = Some (text, why) <->
  exists earlier later tech pattern,
    techs = (earlier ++ tech :: later)%list /\ text = tech
    /\ Forall (fun t => no_hit table (PyStr.lower t)) earlier
    /\ first_hit table (PyStr.lower tech) (pattern, why).
Proof.
  induction techs as [|t techs IH]; cbn [scan_technologies].
  - split; [discriminate|].
    intros (earlier & later & tech & pattern & Heq & _).
    destruct earlier; discriminate Heq.
  - destruct (first_pattern table (PyStr.lower t)) as [[p r]|] eqn:Hfirst.
    + split.
      * intros [= <- <-]. exists [], techs, t, p.
        repeat split; [constructor|]. apply first_pattern_hit, Hfirst.
      * intros (earlier & later & tech & pattern & Heq & -> & Hmiss & Hhit).
        destruct earlier as [|e earlier]; cbn in Heq.
        -- injection Heq as <- _. apply first_pattern_hit in Hhit.
           rewrite Hfirst in Hhit. injection Hhit as _ ->. reflexivity.
        -- injection Heq as <- _. inversion Hmiss as [|? ? He _]; subst.
           apply first_pattern_no_hit in He. congruence.
    + rewrite IH. split.
      * intros (earlier & later & tech & pattern & -> & -> & Hmiss & Hhit).
        exists (t :: earlier), later, tech, pattern.
        repeat split; [|exact Hhit].
        constructor; [apply first_pattern_no_hit, Hfirst|exact Hmiss].
      * intros (earlier & later & tech & pattern & Heq & -> & Hmiss & Hhit).
        destruct earlier as [|e earlier]; cbn in Heq.
        -- injection Heq as <- _. apply first_pattern_hit in Hhit. congruence.
        -- injection Heq as _ ->. inversion Hmiss; subst.
           exists earlier, later, tech, pattern. repeat split; assumption.
Qed.

Lemma scan_technologies_silent (table : list (string * string))
    (techs : list string) :
  scan_technologies table techs = None <->
  Forall (fun t => no_hit table (PyStr.lower t)) techs.
Proof.
  induction techs as [|t techs IH]; cbn [scan_technologies].
  - split; [constructor|reflexivity].
  - destruct (first_pattern table (PyStr.lower t)) as [[p r]|] eqn:Hfirst.
    + split; [discriminate|].
      intros H. inversion H as [|? ? Ht _]; subst.
      apply first_pattern_no_hit in Ht. congruence.
    + rewrite IH. split.
      * intros H. constructor; [apply first_pattern_no_hit, Hfirst|exact H].
      * intros H. inversion H; assumption.
Qed.

Lemma server_match_silent (table : list (string * string))
    (w : WebServiceData) :
  server_match table w = None <-> server_silent table w.
Proof.
  unfold server_match, server_silent.
  destruct (server w) as [[|c s]|]; cbn [truthy Truthy_str].
  - split; [left; reflexivity|reflexivity].
  - rewrite first_pattern_no_hit. split; [right; assumption|].
    intros [H|H]; [discriminate H|exact H].
  - tauto.
Qed.

Lemma server_match_hit (table : list (string * string))
    (w : WebServiceData) (entry : string * string) :
  server_match table w = Some entry <->
  exists s, server w = Some s /\ s <> ""
            /\ first_hit table (PyStr.lower s) entry.
Proof.
  unfold server_match.
  destruct (server w) as [[|c s]|]; cbn [truthy Truthy_str].
  - split; [discriminate|]. intros (s & [= <-] & Hne & _). contradiction.
  - rewrite first_pattern_hit. split.
    + intros H. exists (String c s). repeat split; [discriminate|exact H].
    + intros (s' & [= <-] & _ & H). exact H.
  - split; [discriminate|]. intros (s & Hs & _). discriminate Hs.
Qed.

Lemma outdated_match_verdict (self : RiskCalculator) (w : WebServiceData)
    (m : option (string * string)) :
  outdated_match self w = m <-> outdated_verdict (_outdated_tech self) w m.
Proof.
  rewrite outdated_match_unfold. split.
  - intros <-.
    destruct (server_match _ w) as [[p why]|] eqn:Hserver.
    + apply server_match_hit in Hserver.
      destruct Hserver as (s & Hs & Hne & Hhit).
      exact (verdict_server _ w s p why Hs Hne Hhit).
    + apply server_match_silent in Hserver.
      destruct (technologies w) as [techs|] eqn:Htechs.
      * destruct (scan_technologies _ techs) as [[text why]|] eqn:Hscan.
        -- apply scan_technologies_hit in Hscan.
           destruct Hscan as (earlier & later & tech & p & -> & -> & Hm & Hh).
           exact (verdict_technology _ w earlier later tech p why
                    Hserver Htechs Hm Hh).
        -- apply scan_technologies_silent in Hscan.
           apply verdict_none; [exact Hserver|].
           unfold technologies_silent. rewrite Htechs. exact Hscan.
      * apply verdict_none; [exact Hserver|].
        unfold technologies_silent. rewrite Htechs. exact I.
  - intros [s p why Hs Hne Hhit
           | earlier later tech p why Hserver Htechs Hmiss Hhit
           | Hserver Htechs].
    + assert (H : server_match (_outdated_tech self) w = Some (p, why)).
      { apply server_match_hit. exists s. repeat split; assumption. }
      rewrite H. reflexivity.
    + apply server_match_silent in Hserver. rewrite Hserver, Htechs.
      apply scan_technologies_hit.
      exists earlier, later, tech, p. repeat split; assumption.
    + apply server_match_silent in Hserver. rewrite Hserver.
      unfold technologies_silent in Htechs.
      destruct (technologies w) as [techs|]; [|reflexivity].
      apply scan_technologies_silent, Htechs.
Qed.

Lemma check_outdated_tech_verdict (self : RiskCalculator)
    (w : WebServiceData) (m : option (string * string)) :
  _check_outdated_tech self w = Ok m <->
  outdated_verdict (_outdated_tech self) w m.
Proof.
  rewrite _check_outdated_tech_run, <- outdated_match_verdict.
  split; [intros [= H]; exact H|intros ->; reflexivity].
Qed.

Lemma outdated_factor_in (self : RiskCalculator) (w : WebServiceData)
    (text why : string) :
  outdated_match self w = Some (text, why) ->
  In (mkRiskFactor "Outdated Technology" 20
        ("Detected '" ++ text ++ "': " ++ why))
     (map (factor_of self w) (fired self w)).
Proof.
  intros H. apply in_map_iff. exists OutdatedTechnology. split.
  - unfold factor_of. rewrite H. reflexivity.
  - apply filter_In. split; [cbn; tauto|].
    cbn [fires]. rewrite H. reflexivity.
Qed.

(** C4. The matcher always returns, and what it returns is: for a
    non-empty server in whose lowercase form a pattern occurs, the first
    such entry in table order, the technologies not being consulted;
    otherwise, for the first technologies entry in sequence order in whose
    lowercase form a pattern occurs, that entry with the reason of the
    first such pattern in table order; otherwise nothing.  Table order
    decides, not length or position in the text ([php/7.2] wins over the
    longer and earlier [apache/2.2]), and the result holds at most one
    Outdated Technology factor, worth 20. *)
Theorem check_outdated_tech_order (self : RiskCalculator)
    (w : WebServiceData) :
  (exists m, _check_outdated_tech self w = Ok m)
  /\ (forall m, _check_outdated_tech self w = Ok m <->
                outdated_verdict (_outdated_tech self) w m)
  /\ (exists r, calculate_score self w = Ok r
                /\ (count_factor "Outdated Technology" r <= 1)%nat
                /\ forall f, In f (factors r) ->
                             name f = "Outdated Technology" ->
                             contribution f = 20)
  /\ _check_outdated_tech __init__ two_banners
     = Ok (Some ("php/7.2", "PHP 7.2 is end-of-life since November 2020"))
  /\ _check_outdated_tech __init__ two_libraries
     = Ok (Some ("jQuery/1.12",
                 "jQuery 1.x has known security vulnerabilities")).
Proof.
  split; [eexists; apply _check_outdated_tech_run|].
  split; [intros m; apply check_outdated_tech_verdict|].
  split; [|split; reflexivity].
  eexists. split; [apply calculate_score_run|]. split.
  - rewrite (count_factor_run self w _ OutdatedTechnology).
    destruct (fires self w OutdatedTechnology); lia.
  - intros f Hin Hname.
    apply (contribution_of_named self w _ OutdatedTechnology f Hin Hname).
Qed.

Lemma check_outdated_tech_order_witness :
  outdated_verdict OUTDATED_TECHNOLOGIES two_banners
    (Some ("php/7.2", "PHP 7.2 is end-of-life since November 2020")).
Proof.
  destruct (check_outdated_tech_order __init__ two_banners)
    as (_ & Hverdict & _ & Hrun & _).
  apply (Hverdict _), Hrun.
Defined.

(** C6. A match in the server field returns the table's own pattern, which
    is lowercase, together with its reason; a match in a technologies entry
    returns that entry as it was given, the pattern serving only to find
    the reason.  In both cases the Outdated Technology factor quotes the
    returned text in its explanation. *)
Theorem matched_text_asymmetry (self : RiskCalculator) (w : WebServiceData) :
  (forall s pattern reason,
      server w = Some s -> s <> "" ->
      first_hit (_outdated_tech self) (PyStr.lower s) (pattern, reason) ->
      _check_outdated_tech self w = Ok (Some (pattern, reason))
      /\ In (pattern, reason) (_outdated_tech self)
      /\ exists r,
          calculate_score self w = Ok r
          /\ In (mkRiskFactor "Outdated Technology" 20
                   ("Detected '" ++ pattern ++ "': " ++ reason))
                (factors r))
  /\ (forall earlier later tech pattern reason,
      server_silent (_outdated_tech self) w ->
      technologies w = Some (earlier ++ tech :: later)%list ->
      Forall (fun t => no_hit (_outdated_tech self) (PyStr.lower t)) earlier ->
      first_hit (_outdated_tech self) (PyStr.lower tech) (pattern, reason) ->
      _check_outdated_tech self w = Ok (Some (tech, reason))
      /\ exists r,
          calculate_score self w = Ok r
          /\ In (mkRiskFactor "Outdated Technology" 20
                   ("Detected '" ++ tech ++ "': " ++ reason))
                (factors r))
  /\ Forall (fun e => PyStr.lower (fst e) = fst e) (_outdated_tech __init__)
  /\ _check_outdated_tech __init__
       (mkWebServiceData "https://a.example.com" 200 None (Some "PHP/5.6.40")
          None)
     = Ok (Some ("php/5", "PHP 5.x is end-of-life since January 2019"))
  /\ _check_outdated_tech __init__
       (mkWebServiceData "https://a.example.com" 200 None None
          (Some ["PHP/5.6.40"]))
     = Ok (Some ("PHP/5.6.40", "PHP 5.x is end-of-life since January 2019")).
Proof.
  split; [|split; [|split; [|split; reflexivity]]].
  - intros s pattern reason Hs Hne Hhit.
    assert (Hm : outdated_match self w = Some (pattern, reason)).
    { apply outdated_match_verdict.
      exact (verdict_server _ w s pattern reason Hs Hne Hhit). }
    split; [rewrite _check_outdated_tech_run, Hm; reflexivity|]. split.
    + destruct Hhit as (before & after & -> & _).
      apply in_or_app. right. left. reflexivity.
    + eexists. split; [apply calculate_score_run|].
      apply outdated_factor_in, Hm.
  - intros earlier later tech pattern reason Hserver Htechs Hmiss Hhit.
    assert (Hm : outdated_match self w = Some (tech, reason)).
    { apply outdated_match_verdict.
      exact (verdict_technology _ w earlier later tech pattern reason
               Hserver Htechs Hmiss Hhit). }
    split; [rewrite _check_outdated_tech_run, Hm; reflexivity|].
    eexists. split; [apply calculate_score_run|].
    apply outdated_factor_in, Hm.
  - repeat constructor.
Qed.

Lemma matched_text_asymmetry_witness :
  _check_outdated_tech __init__ two_libraries
  = Ok (Some ("jQuery/1.12", "jQuery 1.x has known security vulnerabilities"))
  /\ exists r,
      calculate_score __init__ two_libraries = Ok r
      /\ In (mkRiskFactor "Outdated Technology" 20
               "Detected 'jQuery/1.12': jQuery 1.x has known security vulnerabilities")
            (factors r).
Proof.
  destruct (matched_text_asymmetry __init__ two_libraries)
    as (_ & Htech & _).
  apply (Htech ["React"] ["PHP/5.6"] "jQuery/1.12" "jquery/1."
           "jQuery 1.x has known security vulnerabilities").
  - right. apply first_pattern_no_hit. reflexivity.
  - reflexivity.
  - constructor; [|constructor]. apply first_pattern_no_hit. reflexivity.
  - apply first_pattern_hit. reflexivity.
Defined.

(* ===================================================================== *)
(** ** Version disclosure *)
(* ===================================================================== *)

Lemma app_assoc_str (a b c : string) : (a ++ b) ++ c = a ++ (b ++ c).
Proof.
  induction a as [|x a IH]; cbn; [reflexivity|]. rewrite IH. reflexivity.
Qed.

Lemma match_here_some (s : string) :
  Re.bool_of_match (Re.match_here s) = true <->
  exists d rest, s = String "/" (String d rest) /\ Re.is_digit d = true.
Proof.
  destruct s as [|c s]; cbn [Re.match_here].
  - split; [discriminate|]. intros (d & rest & H & _). discriminate H.
  - destruct (Ascii.eqb c "/") eqn:Hc.
    + apply Ascii.eqb_eq in Hc. subst c.
      destruct s as [|d rest]; cbn [Re.span].
      * split; [discriminate|]. intros (d & rest & H & _). discriminate H.
      * destruct (Re.is_digit d) eqn:Hd.
        -- destruct (Re.span Re.is_digit rest) as [run tail].
           destruct (Re.span Re.is_dot_or_digit tail) as [more rest'].
           split; [|reflexivity]. intros _. exists d, rest. split; auto.
        -- split; [discriminate|].
           intros (d' & rest' & [= <- <-] & H). congruence.
    + split; [discriminate|].
      intros (d & rest & [= -> _] & _). discriminate Hc.
Qed.

Lemma search_slash_digit (s : string) :
  Re.bool_of_match (Re.search s) = true <-> slash_digit s.
Proof.
  induction s as [|c s IH].
  - cbn. split; [discriminate|].
    intros (before & d & after & H & _). destruct before; discriminate H.
  - cbn [Re.search].
    destruct (Re.match_here (String c s)) as [m|] eqn:Hm.
    + split; [intros _|reflexivity].
      assert (H : Re.bool_of_match (Re.match_here (String c s)) = true)
        by (rewrite Hm; reflexivity).
      apply match_here_some in H. destruct H as (d & rest & -> & Hd).
      exists "", d, rest. split; [reflexivity|exact Hd].
    + rewrite IH. split.
      * intros (before & d & after & -> & Hd).
        exists (String c before), d, after. split; [reflexivity|exact Hd].
      * intros (before & d & after & H & Hd).
        destruct before as [|b before]; cbn in H.
        -- assert (Hsome : Re.bool_of_match (Re.match_here (String c s)) = true)
             by (apply match_here_some; exists d, after; split; assumption).
           rewrite Hm in Hsome. discriminate Hsome.
        -- injection H as _ ->. exists before, d, after. split; auto.
Qed.

Lemma slash_digit_discloses (s : string) :
  slash_digit s <-> discloses_version s.
Proof.
  split.
  - intros (before & d & after & -> & Hd).
    exists before, (String "/" (String d "")), after. split; [reflexivity|].
    exists (String d ""), "". repeat split.
    + discriminate.
    + cbn. rewrite Hd. reflexivity.
    + constructor.
  - intros (before & v & after & -> & n & tail & -> & [Hne Hdigits] & _).
    destruct n as [|d n]; [contradiction|].
    cbn in Hdigits. apply andb_prop in Hdigits. destruct Hdigits as [Hd _].
    exists before, d, (n ++ tail ++ after). split; [|exact Hd].
    cbn. rewrite app_assoc_str. reflexivity.
Qed.

Lemma has_version_discloses (s : string) :
  Re.bool_of_match (VERSION_PATTERN_search s) = true <-> discloses_version s.
Proof.
  unfold VERSION_PATTERN_search.
  rewrite search_slash_digit. apply slash_digit_discloses.
Qed.

Section VersionDisclosureU.

Variable is_decimal : N -> bool.

Lemma umatch_here_some (s : list N) :
  ReU.bool_of_match (ReU.match_here is_decimal s) = true <->
  exists d rest, s = (47 :: d :: rest)%N /\ is_decimal d = true.
Proof.
  destruct s as [|c s]; cbn [ReU.match_here].
  - split; [discriminate|]. intros (d & rest & H & _). discriminate H.
  - unfold ReU.is_slash. destruct (N.eqb_spec c 47) as [->|Hc].
    + destruct s as [|d rest]; cbn [ReU.span].
      * split; [discriminate|]. intros (d & rest & H & _). discriminate H.
      * destruct (is_decimal d) eqn:Hd.
        -- destruct (ReU.span is_decimal rest) as [run tail].
           destruct (ReU.span (ReU.is_dot_or_decimal is_decimal) tail)
             as [more rest'].
           split; [|reflexivity]. intros _. exists d, rest. split; auto.
        -- split; [discriminate|].
           intros (d' & rest' & [= <- <-] & H). congruence.
    + split; [discriminate|].
      intros (d & rest & [= -> _] & _). contradiction.
Qed.

Lemma usearch_slash_digit (s : list N) :
  ReU.bool_of_match (ReU.search is_decimal s) = true <->
  uslash_digit is_decimal s.
Proof.
  induction s as [|c s IH].
  - cbn. split; [discriminate|].
    intros (before & d & after & H & _). destruct before; discriminate H.
  - cbn [ReU.search].
    destruct (ReU.match_here is_decimal (c :: s)) as [m|] eqn:Hm.
    + split; [intros _|reflexivity].
      assert (H : ReU.bool_of_match (ReU.match_here is_decimal (c :: s))
                  = true) by (rewrite Hm; reflexivity).
      apply umatch_here_some in H. destruct H as (d & rest & -> & Hd).
      exists [], d, rest. split; [reflexivity|exact Hd].
    + rewrite IH. split.
      * intros (before & d & after & -> & Hd).
        exists (c :: before), d, after. split; [reflexivity|exact Hd].
      * intros (before & d & after & H & Hd).
        destruct before as [|b before]; cbn in H.
        -- assert (Hsome : ReU.bool_of_match
                             (ReU.match_here is_decimal (c :: s)) = true)
             by (apply umatch_here_some; exists d, after; split; assumption).
           rewrite Hm in Hsome. discriminate Hsome.
        -- injection H as _ ->. exists before, d, after. split; auto.
Qed.

Lemma uslash_digit_discloses (s : list N) :
  uslash_digit is_decimal s <-> udiscloses_version is_decimal s.
Proof.
  split.
  - intros (before & d & after & -> & Hd).
    exists before, [47; d]%N, after. split; [reflexivity|].
    exists [d], []. repeat split.
    + discriminate.
    + cbn. rewrite Hd. reflexivity.
    + constructor.
  - intros (before & v & after & -> & n & tail & -> & [Hne Hdigits] & _).
    destruct n as [|d n]; [contradiction|].
    cbn in Hdigits. apply andb_prop in Hdigits. destruct Hdigits as [Hd _].
    exists before, d, (n ++ tail ++ after)%list. split; [|exact Hd].
    cbn. rewrite <- !app_assoc. reflexivity.
Qed.

Lemma version_rule_iff (server : option (list N)) :
  exists fires,
    ReU.version_rule is_decimal server = Ok fires
    /\ (fires = true <->
        exists s, server = Some s /\ s <> []
                  /\ udiscloses_version is_decimal s).
Proof.
  unfold ReU.version_rule, ReU._has_version.
  destruct server as [[|c s]|]; cbn [truthy Truthy_option Truthy_list].
  - exists false. split; [reflexivity|]. split; [discriminate|].
    intros (s & [= <-] & Hne & _). contradiction.
  - eexists. split; [reflexivity|].
    rewrite usearch_slash_digit, uslash_digit_discloses. split.
    + intros H. exists (c :: s). repeat split; [discriminate|exact H].
    + intros (s' & [= <-] & _ & H). exact H.
  - exists false. split; [reflexivity|]. split; [discriminate|].
    intros (s & H & _). discriminate H.
Qed.

(** Below code point 256 the decimal digits are 0-9, whatever the version
    of the Unicode database. *)
Hypothesis decimal_below_256 :
  forall c, (c < 256)%N -> is_decimal c = is_ascii_digit c.

Lemma is_digit_decimal (c : ascii) :
  Re.is_digit c = is_decimal (N_of_ascii c).
Proof.
  rewrite (decimal_below_256 _ (N_ascii_bounded c)).
  destruct c as [[] [] [] [] [] [] [] []]; reflexivity.
Qed.

Lemma codepoints_cons (c : ascii) (s : string) :
  ReU.codepoints (String c s) = N_of_ascii c :: ReU.codepoints s.
Proof. reflexivity. Qed.

Lemma codepoints_app (a b : string) :
  ReU.codepoints (a ++ b) = (ReU.codepoints a ++ ReU.codepoints b)%list.
Proof.
  induction a as [|c a IH]; [reflexivity|].
  change (String c a ++ b) with (String c (a ++ b)).
  rewrite !codepoints_cons, IH. reflexivity.
Qed.

Lemma codepoints_split (s : string) (x y : list N) :
  ReU.codepoints s = (x ++ y)%list ->
  exists a b, s = a ++ b /\ ReU.codepoints a = x /\ ReU.codepoints b = y.
Proof.
  revert s. induction x as [|c x IH]; intros s H.
  - exists "", s. repeat split. exact H.
  - destruct s as [|d s]; [discriminate H|].
    rewrite codepoints_cons in H. cbn [List.app] in H.
    injection H as Hc Hrest.
    destruct (IH s Hrest) as (a & b & -> & Ha & Hb).
    exists (String d a), b. repeat split; [|exact Hb].
    rewrite codepoints_cons, Hc, Ha. reflexivity.
Qed.

Lemma slash_digit_codepoints (s : string) :
  slash_digit s <-> uslash_digit is_decimal (ReU.codepoints s).
Proof.
  split.
  - intros (before & d & after & -> & Hd).
    exists (ReU.codepoints before), (N_of_ascii d), (ReU.codepoints after).
    split; [rewrite codepoints_app; reflexivity|].
    rewrite <- is_digit_decimal. exact Hd.
  - intros (x & d & y & Heq & Hd).
    apply codepoints_split in Heq. destruct Heq as (a & b & -> & _ & Hb).
    destruct b as [|c1 [|c2 rest]]; try discriminate Hb.
    rewrite !codepoints_cons in Hb. injection Hb as Hc1 Hc2 _.
    assert (c1 = "/"%char) as ->.
    { rewrite <- (ascii_N_embedding c1), Hc1. reflexivity. }
    exists a, c2, rest. split; [reflexivity|].
    rewrite is_digit_decimal, Hc2. exact Hd.
Qed.

(** On the code points of a [string] the two embeddings of the pattern
    agree. *)
Lemma search_codepoints (s : string) :
  Re.bool_of_match (Re.search s)
  = ReU.bool_of_match (ReU.search is_decimal (ReU.codepoints s)).
Proof.
  apply eq_true_iff_eq.
  rewrite search_slash_digit, usearch_slash_digit.
  apply slash_digit_codepoints.
Qed.

Lemma guard_codepoints (self : RiskCalculator) (server : option string) :
  (if truthy server then _has_version self server else Ok false)
  = ReU.version_rule is_decimal (option_map ReU.codepoints server).
Proof.
  unfold ReU.version_rule, ReU._has_version, _has_version,
    VERSION_PATTERN_search.
  destruct server as [[|c s]|]; cbn [option_map]; [reflexivity| |reflexivity].
  rewrite search_codepoints. reflexivity.
Qed.


End VersionDisclosureU.

Lemma is_decimal_14_below_256 (c : N) :
  (c < 256)%N -> is_decimal_14 c = is_ascii_digit c.
Proof.
  intros Hc. rewrite <- (N_ascii_embedding c Hc).
  generalize (ascii_of_N c). intros a.
  destruct a as [[] [] [] [] [] [] [] []]; vm_compute; reflexivity.
Qed.



(* ===================================================================== *)
(** ** Monotonicity per rule *)
(* ===================================================================== *)

Lemma sum_points_one_more (self : RiskCalculator) (S S' : WebServiceData)
    (R : rule) :
  fires self S R = false ->
  fires self S' R = true ->
  (forall R', R' <> R -> fires self S' R' = fires self S R') ->
  sum_points (fired self S') = sum_points (fired self S) + points R.
Proof.
  intros Hno Hyes Hother. unfold fired, all_rules. cbn [filter].
  destruct R; rewrite Hyes, Hno;
    repeat match goal with
           | |- context [fires self S' ?X] =>
               rewrite (Hother X) by discriminate
           end;
    repeat match goal with
           | |- context [fires self S ?X] => destruct (fires self S X)
           end;
    reflexivity.
Qed.

(** C8, as amended.  When exactly one more rule [R] triggers, the others
    unchanged, the score does not decrease and becomes
    [min(100, old score + points of R)]: it grows by exactly the points of
    [R] whenever that sum stays within 100, and is 100 otherwise. *)
Theorem per_rule_monotonicity (self : RiskCalculator)
    (S S' : WebServiceData) (R : rule) (rS rS' : RiskResult) :
  calculate_score self S = Ok rS ->
  calculate_score self S' = Ok rS' ->
  adds_exactly R rS rS' ->
  score rS <= score rS'
  /\ score rS' = Z.min 100 (score rS + points R)
  /\ (score rS + points R <= 100 -> score rS' = score rS + points R)
  /\ score rS' <= 100.
Proof.
  rewrite !calculate_score_run. intros HS HS' (Hno & Hyes & Hother).
  apply Ok_inj in HS, HS'. subst rS rS'.
  unfold triggered in Hno, Hyes, Hother.
  rewrite has_factor_run in Hno, Hyes.
  assert (Hsum : sum_points (fired self S')
                 = sum_points (fired self S) + points R).
  { apply sum_points_one_more; [exact Hno|exact Hyes|].
    intros R' HR'. specialize (Hother R' HR').
    rewrite !has_factor_run in Hother. exact Hother. }
  cbn [score]. rewrite Hsum.
  pose proof (points_pos R). pose proof (sum_points_nonneg (fired self S)).
  unfold BASE_SCORE. split; [lia|]. split; [lia|]. split; [intros Hroom|]; lia.
Qed.

Lemma adds_no_https_to_staging :
  adds_exactly NoHTTPS staging_https_result staging_result.
Proof.
  repeat split. intros R' HR'. destruct R'; try reflexivity. contradiction.
Qed.

Lemma per_rule_monotonicity_witness :
  score staging_https_result <= score staging_result
  /\ score staging_result
     = Z.min 100 (score staging_https_result + points NoHTTPS)
  /\ (score staging_https_result + points NoHTTPS <= 100 ->
      score staging_result = score staging_https_result + points NoHTTPS)
  /\ score staging_result <= 100.
Proof.
  apply (per_rule_monotonicity __init__ staging_https staging_signal).
  - reflexivity.
  - reflexivity.
  - repeat split. intros R' HR'. destruct R'; try reflexivity. contradiction.
Defined.

(** C8, as worded, fails: on [https://staging.example.com] (status 200,
    server [nginx/1.0.5]) four rules trigger, the sum is 95 and the cap is
    not active; switching the url to [http://] makes exactly No HTTPS
    trigger in addition, yet the score goes to 100, not to 95 + 15. *)
Lemma per_rule_increase_counterexample :
  exists rS rS',
    calculate_score __init__ staging_https = Ok rS
    /\ calculate_score __init__ staging_signal = Ok rS'
    /\ adds_exactly NoHTTPS rS rS'
    /\ ~ cap_active rS
    /\ score rS = 95
    /\ score rS' = 100
    /\ score rS' <> score rS + points NoHTTPS.
Proof.
  eexists. eexists.
  split; [reflexivity|]. split; [reflexivity|].
  split; [exact adds_no_https_to_staging|].
  split; [|repeat split; discriminate].
  unfold cap_active. cbn. lia.
Qed.

(* ===================================================================== *)
(** * Further properties of the code around the calculator *)
(* ===================================================================== *)

(* ===================================================================== *)
(** ** Substrings and lowercase *)
(* ===================================================================== *)

Lemma contains_iff (needle haystack : string) :
  PyStr.contains needle haystack = true <->
  exists before after, haystack = before ++ needle ++ after.
Proof.
  induction haystack as [|c h IH]; cbn [PyStr.contains].
  - destruct (String.prefix needle "") eqn:Hp.
    + split; [intros _|reflexivity].
      apply prefix_split in Hp. destruct Hp as (rest & Hrest).
      exists "", rest. exact Hrest.
    + split; [discriminate|].
      intros (before & after & Heq).
      destruct before; [|discriminate Heq]. cbn in Heq.
      rewrite Heq, prefix_app in Hp. discriminate Hp.
  - destruct (String.prefix needle (String c h)) eqn:Hp.
    + split; [intros _|reflexivity].
      apply prefix_split in Hp. destruct Hp as (rest & Hrest).
      exists "", rest. exact Hrest.
    + rewrite IH. split.
      * intros (before & after & ->). exists (String c before), after.
        reflexivity.
      * intros (before & after & Heq).
        destruct before as [|b before]; cbn in Heq.
        -- rewrite Heq, prefix_app in Hp. discriminate Hp.
        -- injection Heq as _ ->. exists before, after. reflexivity.
Qed.

Lemma lower_app (a b : string) :
  PyStr.lower (a ++ b) = PyStr.lower a ++ PyStr.lower b.
Proof.
  induction a as [|c a IH]; cbn; [reflexivity|]. rewrite IH. reflexivity.
Qed.

Lemma lower_char_idem (c : ascii) :
  PyStr.lower_char (PyStr.lower_char c) = PyStr.lower_char c.
Proof. destruct c as [[] [] [] [] [] [] [] []]; reflexivity. Qed.

Lemma lower_idem (s : string) : PyStr.lower (PyStr.lower s) = PyStr.lower s.
Proof.
  induction s as [|c s IH]; cbn; [reflexivity|].
  rewrite lower_char_idem, IH. reflexivity.
Qed.

(* ===================================================================== *)
(** ** Non-production indicators *)
(* ===================================================================== *)

Lemma first_indicator_hit_iff (indicators : list string) (text entry : string) :
  first_indicator indicators text = Some entry <->
  first_indicator_hit indicators text entry.
Proof.
  induction indicators as [|i indicators IH]; cbn [first_indicator].
  - split; [discriminate|].
    intros (before & after & Heq & _). destruct before; discriminate Heq.
  - destruct (PyStr.contains i text) eqn:Hi.
    + split.
      * intros [= <-]. exists [], indicators.
        repeat split; [exact Hi|constructor].
      * intros (before & after & Heq & _ & Hmiss).
        destruct before as [|b before]; cbn in Heq.
        -- injection Heq as <- _. reflexivity.
        -- injection Heq as <- _. inversion Hmiss as [|? ? Hb _]; subst.
           congruence.
    + rewrite IH. split.
      * intros (before & after & -> & Hin & Hmiss).
        exists (i :: before), after.
        repeat split; [exact Hin|]. constructor; [exact Hi|exact Hmiss].
      * intros (before & after & Heq & Hin & Hmiss).
        destruct before as [|b before]; cbn in Heq.
        -- injection Heq as <- _. congruence.
        -- injection Heq as _ ->. inversion Hmiss; subst.
           exists before, after. repeat split; assumption.
Qed.

Lemma first_indicator_in (indicators : list string) (text entry : string) :
  first_indicator indicators text = Some entry ->
  In entry indicators /\ PyStr.contains entry text = true.
Proof.
  intros H. apply first_indicator_hit_iff in H.
  destruct H as (before & after & -> & Hin & _). split; [|exact Hin].
  apply in_or_app. right. left. reflexivity.
Qed.

Lemma first_indicator_none (indicators : list string) (text : string) :
  first_indicator indicators text = None <->
  Forall (fun i => PyStr.contains i text = false) indicators.
Proof.
  induction indicators as [|i indicators IH]; cbn [first_indicator].
  - split; [constructor|reflexivity].
  - destruct (PyStr.contains i text) eqn:Hi.
    + split; [discriminate|]. intros H. inversion H; subst. congruence.
    + rewrite IH. split.
      * intros H. constructor; [exact Hi|exact H].
      * intros H. inversion H; assumption.
Qed.

Lemma indicators_nonempty :
  Forall (fun i => truthy i = true) NON_PROD_INDICATORS.
Proof. repeat constructor. Qed.

Lemma non_production_fires_iff (u : string) :
  truthy (_check_non_production __init__ u) = true <->
  exists indicator, In indicator NON_PROD_INDICATORS
                    /\ PyStr.contains indicator (PyStr.lower u) = true.
Proof.
  unfold _check_non_production. cbn [_non_prod_indicators __init__].
  destruct (first_indicator NON_PROD_INDICATORS (PyStr.lower u))
    as [entry|] eqn:Hfirst.
  - apply first_indicator_in in Hfirst. destruct Hfirst as [Hin Hc].
    split; [intros _; exists entry; split; assumption|intros _].
    pose proof indicators_nonempty as Hne.
    rewrite Forall_forall in Hne. exact (Hne entry Hin).
  - split; [discriminate|]. intros (i & Hin & Hc).
    apply first_indicator_none in Hfirst.
    rewrite Forall_forall in Hfirst. rewrite (Hfirst i Hin) in Hc.
    discriminate Hc.
Qed.

(** X1. Non-Production Exposed, worth 15, is among the factors exactly
    when one of the indicators occurs somewhere in the lowercase url, in
    the host, the path or anywhere else; urls that differ only in case
    agree on it. *)
Theorem non_production_iff (w : WebServiceData) :
  exists r,
    calculate_score __init__ w = Ok r
    /\ (has_factor "Non-Production Exposed" r = true <->
        exists indicator before after,
          In indicator NON_PROD_INDICATORS
          /\ PyStr.lower (url w) = before ++ indicator ++ after)
    /\ (forall w', PyStr.lower (url w') = PyStr.lower (url w) ->
        exists r', calculate_score __init__ w' = Ok r'
                   /\ has_factor "Non-Production Exposed" r'
                      = has_factor "Non-Production Exposed" r)
    /\ (forall f, In f (factors r) -> name f = "Non-Production Exposed" ->
        contribution f = 15).
Proof.
  eexists. split; [apply calculate_score_run|].
  rewrite (has_factor_run __init__ w _ NonProductionExposed).
  cbn [fires factors]. split; [|split].
  - rewrite non_production_fires_iff. split.
    + intros (i & Hin & Hc). apply contains_iff in Hc.
      destruct Hc as (before & after & Heq). exists i, before, after.
      split; assumption.
    + intros (i & before & after & Hin & Heq). exists i.
      split; [exact Hin|]. apply contains_iff. exists before, after. exact Heq.
  - intros w' Hsame. eexists. split; [apply calculate_score_run|].
    rewrite (has_factor_run __init__ w' _ NonProductionExposed).
    cbn [fires]. unfold _check_non_production. rewrite Hsame. reflexivity.
  - intros f Hin Hname.
    apply (contribution_of_named __init__ w _ NonProductionExposed f Hin Hname).
Qed.

Lemma non_production_iff_witness :
  exists r,
    calculate_score __init__
      (mkWebServiceData "https://www.example.com/Latest/News" 404 None None
         None) = Ok r
    /\ has_factor "Non-Production Exposed" r = true.
Proof.
  destruct (non_production_iff
              (mkWebServiceData "https://www.example.com/Latest/News" 404
                 None None None))
    as (r & Hrun & Hiff & _).
  exists r. split; [exact Hrun|]. apply Hiff.
  exists "test", "https://www.example.com/la", "/news".
  split; [cbn; tauto|reflexivity].
Defined.

(** X2. The indicator [_check_non_production] returns is the first one, in
    list order, that occurs in the lowercase url; when it returns one the
    Non-Production Exposed factor quotes it in its explanation, and when
    it returns none the factor is absent. *)
Theorem non_production_reports_first (w : WebServiceData) :
  (forall indicator,
      _check_non_production __init__ (url w) = Some indicator <->
      first_indicator_hit NON_PROD_INDICATORS (PyStr.lower (url w)) indicator)
  /\ exists r,
      calculate_score __init__ w = Ok r
      /\ (forall indicator,
             _check_non_production __init__ (url w) = Some indicator ->
             In (mkRiskFactor "Non-Production Exposed" 15
                   ("URL contains '" ++ indicator
                      ++ "', indicating a non-production environment exposed to the internet"))
                (factors r))
      /\ (_check_non_production __init__ (url w) = None ->
          has_factor "Non-Production Exposed" r = false).
Proof.
  split; [intros indicator; apply first_indicator_hit_iff|].
  eexists. split; [apply calculate_score_run|]. cbn [factors]. split.
  - intros indicator Hsome. apply in_map_iff.
    exists NonProductionExposed. split.
    + unfold factor_of. rewrite Hsome. reflexivity.
    + apply filter_In. split; [cbn; tauto|].
      cbn [fires]. rewrite Hsome.
      apply first_indicator_in in Hsome. destruct Hsome as [Hin _].
      pose proof indicators_nonempty as Hne.
      rewrite Forall_forall in Hne. exact (Hne indicator Hin).
  - intros Hnone.
    rewrite (has_factor_run __init__ w _ NonProductionExposed).
    cbn [fires]. rewrite Hnone. reflexivity.
Qed.

Lemma non_production_reports_first_witness :
  exists r,
    calculate_score __init__
      (mkWebServiceData "https://qa-demo.dev.example.com" 404 None None None)
      = Ok r
    /\ In (mkRiskFactor "Non-Production Exposed" 15
             "URL contains 'dev', indicating a non-production environment exposed to the internet")
          (factors r).
Proof.
  destruct (non_production_reports_first
              (mkWebServiceData "https://qa-demo.dev.example.com" 404 None
                 None None))
    as (_ & r & Hrun & Hquote & _).
  exists r. split; [exact Hrun|]. apply (Hquote "dev"). reflexivity.
Defined.

(* ===================================================================== *)
(** ** Directory listing, and the shape of the factor list *)
(* ===================================================================== *)

(** X3. Directory Listing, worth 10, is among the factors exactly when the
    title is present and its lowercase form contains [index of]; titles
    that differ only in case agree on it, whatever the other fields. *)
Theorem directory_listing_iff (self : RiskCalculator) (w : WebServiceData) :
  exists r,
    calculate_score self w = Ok r
    /\ (has_factor "Directory Listing" r = true <->
        exists t before after,
          title w = Some t
          /\ PyStr.lower t = before ++ "index of" ++ after)
    /\ (forall w' t t',
           title w = Some t -> title w' = Some t' ->
           PyStr.lower t' = PyStr.lower t ->
           exists r', calculate_score self w' = Ok r'
                      /\ has_factor "Directory Listing" r'
                         = has_factor "Directory Listing" r)
    /\ (forall f, In f (factors r) -> name f = "Directory Listing" ->
        contribution f = 10).
Proof.
  eexists. split; [apply calculate_score_run|].
  rewrite (has_factor_run self w _ DirectoryListing).
  cbn [fires factors]. split; [|split].
  - destruct (title w) as [t|].
    + rewrite andb_true_iff, contains_iff. split.
      * intros [_ (before & after & Heq)]. exists t, before, after.
        split; [reflexivity|exact Heq].
      * intros (t' & before & after & [= <-] & Heq). split.
        -- destruct t; [|reflexivity]. destruct before; discriminate Heq.
        -- exists before, after. exact Heq.
    + split; [discriminate|]. intros (t & ? & ? & H & _). discriminate H.
  - intros w' t t' Ht Ht' Hsame. eexists. split; [apply calculate_score_run|].
    rewrite (has_factor_run self w' _ DirectoryListing).
    cbn [fires]. rewrite Ht, Ht', Hsame. f_equal.
    destruct t as [|c t], t' as [|c' t']; try reflexivity; discriminate Hsame.
  - intros f Hin Hname.
    apply (contribution_of_named self w _ DirectoryListing f Hin Hname).
Qed.

Lemma directory_listing_iff_witness :
  exists r,
    calculate_score __init__
      (mkWebServiceData "https://files.example.com" 403
         (Some "INDEX OF /backups") None None) = Ok r
    /\ has_factor "Directory Listing" r = true.
Proof.
  destruct (directory_listing_iff __init__
              (mkWebServiceData "https://files.example.com" 403
                 (Some "INDEX OF /backups") None None))
    as (r & Hrun & Hiff & _).
  exists r. split; [exact Hrun|]. apply Hiff.
  exists "INDEX OF /backups", "", " /backups". split; reflexivity.
Defined.

Lemma NoDup_map_injective {A B : Type} (f : A -> B) (l : list A) :
  (forall x y, f x = f y -> x = y) -> NoDup l -> NoDup (map f l).
Proof.
  intros Hinj Hl. induction Hl as [|x l Hx Hl IH]; cbn; constructor.
  - intros Hin. apply in_map_iff in Hin. destruct Hin as (y & Hy & Hin).
    apply Hinj in Hy. subst y. contradiction.
  - exact IH.
Qed.

Lemma NoDup_all_rules : NoDup all_rules.
Proof.
  unfold all_rules.
  repeat (constructor; [cbn; intuition discriminate|]). constructor.
Qed.

(** X4. The factor names of a result are the six rule names in evaluation
    order with some left out: no name twice, at most six factors, each
    carrying the points of its rule; Live Service is there exactly when
    the status code is 200. *)
Theorem factors_follow_rule_order (self : RiskCalculator)
    (w : WebServiceData) :
  exists r,
    calculate_score self w = Ok r
    /\ is_subsequence (map name (factors r)) (map rule_name all_rules) = true
    /\ NoDup (map name (factors r))
    /\ (List.length (factors r) <= 6)%nat
    /\ (forall f, In f (factors r) ->
        exists rl, name f = rule_name rl /\ contribution f = points rl)
    /\ (has_factor "Live Service" r = true <-> status_code w = 200).
Proof.
  eexists. split; [apply calculate_score_run|].
  rewrite (has_factor_run self w _ LiveService). cbn [factors fires].
  split; [|split; [|split; [|split]]].
  - unfold fired, all_rules. cbn [filter]. case_fires self w; reflexivity.
  - rewrite map_map.
    apply NoDup_map_injective.
    + intros x y Hxy. apply rule_name_inj, Hxy.
    + apply NoDup_filter, NoDup_all_rules.
  - rewrite length_map. apply (filter_length_le (fires self w) all_rules).
  - intros f Hin. apply in_map_iff in Hin. destruct Hin as (rl & <- & _).
    exists rl. split; reflexivity.
  - apply Z.eqb_eq.
Qed.


(* ===================================================================== *)
(** ** Risk levels: the MCP server and the dashboard *)
(* ===================================================================== *)

(** Decide every threshold comparison in sight. *)
Ltac case_thresholds :=
  repeat match goal with
         | |- context [?a >=? ?b] =>
             rewrite (Z.geb_leb a b); destruct (Z.leb_spec b a)
         end.

(** Evaluate the closed labels and ranks left by a case split. *)
Ltac eval_levels :=
  repeat match goal with
         | |- context [PyStr.lower ?t] =>
             let v := eval vm_compute in (PyStr.lower t) in
             change (PyStr.lower t) with v
         end;
  repeat match goal with
         | |- context [level_rank ?t] =>
             let v := eval vm_compute in (level_rank t) in
             change (level_rank t) with v
         end.

(** X5. Both classifiers are monotone: a higher score never gets a lower
    level, in [classify_risk] of the MCP server and in [get_risk_level] of
    the dashboard alike. *)
Theorem risk_levels_monotone (s s' : Z) :
  s <= s' ->
  level_rank (McpServer.classify_risk s)
  <= level_rank (McpServer.classify_risk s')
  /\ level_rank (PyStr.lower (fst (UiApp.get_risk_level (Some s))))
     <= level_rank (PyStr.lower (fst (UiApp.get_risk_level (Some s')))).
Proof.
  intros Hle. unfold McpServer.classify_risk, UiApp.get_risk_level.
  split; case_thresholds; cbn [fst]; eval_levels; lia.
Qed.

Lemma risk_levels_monotone_witness :
  level_rank (McpServer.classify_risk 59)
  <= level_rank (McpServer.classify_risk 60)
  /\ level_rank (PyStr.lower (fst (UiApp.get_risk_level (Some 59))))
     <= level_rank (PyStr.lower (fst (UiApp.get_risk_level (Some 60)))).
Proof. apply risk_levels_monotone. lia. Defined.

(** X6. The level the MCP tool attaches to a calculated score is [low]
    exactly when at most one factor fired and neither Live Service nor
    Outdated Technology did; a service answering 200 is never [low]. *)
Theorem calculated_level_low_iff (self : RiskCalculator) (w : WebServiceData) :
  exists r,
    calculate_score self w = Ok r
    /\ (McpServer.classify_risk (score r) = "low" <->
        (List.length (factors r) <= 1)%nat
        /\ has_factor "Live Service" r = false
        /\ has_factor "Outdated Technology" r = false)
    /\ (status_code w = 200 -> McpServer.classify_risk (score r) <> "low").
Proof.
  eexists. split; [apply calculate_score_run|].
  rewrite (has_factor_run self w _ LiveService),
    (has_factor_run self w _ OutdatedTechnology).
  cbn [score factors]. rewrite length_map.
  assert (Hlive : status_code w = 200 -> fires self w LiveService = true).
  { intros H. cbn [fires]. rewrite H. reflexivity. }
  unfold fired, all_rules, BASE_SCORE. cbn [filter]. revert Hlive.
  case_fires self w; intros Hlive; cbn; (split; [split|]);
    try (intros H; try discriminate H; repeat split; try reflexivity; lia);
    try (intros (H1 & H2 & H3); try reflexivity; try discriminate; lia);
    try (intros Hs; specialize (Hlive Hs); discriminate);
    try (intros Hs Hlow; specialize (Hlive Hs); discriminate).
Qed.

Lemma calculated_level_low_iff_witness :
  exists r,
    calculate_score __init__
      (mkWebServiceData "http://www.example.com" 200 None None None) = Ok r
    /\ McpServer.classify_risk (score r) <> "low".
Proof.
  destruct (calculated_level_low_iff __init__
              (mkWebServiceData "http://www.example.com" 200 None None None))
    as (r & Hrun & _ & Hlive).
  exists r. split; [exact Hrun|]. apply Hlive. reflexivity.
Defined.

(** X7. The dashboard and the MCP server do not grade alike: the dashboard
    label, lowercased, is the server's level except for scores in 30..39,
    50..59 and 70..79, where the dashboard is exactly one level higher. *)
Theorem dashboard_grades_higher (s : Z) :
  let ui := PyStr.lower (fst (UiApp.get_risk_level (Some s))) in
  let mcp := McpServer.classify_risk s in
  (ui = mcp <-> ~ (30 <= s < 40 \/ 50 <= s < 60 \/ 70 <= s < 80))
  /\ (30 <= s < 40 \/ 50 <= s < 60 \/ 70 <= s < 80 ->
      level_rank ui = level_rank mcp + 1).
Proof.
  unfold McpServer.classify_risk, UiApp.get_risk_level.
  cbv zeta.
  case_thresholds; cbn [fst]; eval_levels; (split; [split|]);
    try (intros _; reflexivity);
    try (intros Hx; try discriminate Hx; lia);
    try (intros Hx; exfalso; lia).
Qed.

Lemma dashboard_grades_higher_witness :
  level_rank (PyStr.lower (fst (UiApp.get_risk_level (Some 75))))
  = level_rank (McpServer.classify_risk 75) + 1.
Proof.
  destruct (dashboard_grades_higher 75) as [_ H]. apply H. lia.
Defined.

(** X8. On the dashboard a calculated score is [Low] exactly when no
    factor fired: any single rule lifts a service out of it. *)
Theorem dashboard_low_iff_no_factor (self : RiskCalculator)
    (w : WebServiceData) :
  exists r,
    calculate_score self w = Ok r
    /\ (fst (UiApp.get_risk_level (Some (score r))) = "Low" <->
        factors r = []).
Proof.
  eexists. split; [apply calculate_score_run|].
  cbn [score factors].
  unfold fired, all_rules, BASE_SCORE. cbn [filter].
  case_fires self w; cbn; split; intros H; try reflexivity; discriminate H.
Qed.


(* ===================================================================== *)
(** ** Whitespace, split and join *)
(* ===================================================================== *)

Lemma split_nonempty (sep : ascii) (s : string) : PyText.split sep s <> [].
Proof.
  destruct s as [|c s]; cbn [PyText.split]; [discriminate|].
  destruct (Ascii.eqb c sep); [discriminate|].
  destruct (PyText.split sep s); discriminate.
Qed.

Lemma split_pieces_free (sep : ascii) (s : string) :
  Forall (fun p => PyText.mem_char sep p = false) (PyText.split sep s).
Proof.
  induction s as [|c s IH]; cbn [PyText.split].
  - repeat constructor.
  - destruct (Ascii.eqb c sep) eqn:Hc.
    + constructor; [reflexivity|exact IH].
    + destruct (PyText.split sep s) as [|piece pieces].
      * repeat constructor. cbn. rewrite Hc. reflexivity.
      * inversion IH as [|? ? Hpiece Hrest]; subst.
        constructor; [|exact Hrest]. cbn. rewrite Hc. exact Hpiece.
Qed.

Lemma split_free (sep : ascii) (s : string) :
  PyText.mem_char sep s = false -> PyText.split sep s = [s].
Proof.
  induction s as [|c s IH]; cbn [PyText.split PyText.mem_char].
  - reflexivity.
  - intros H. apply orb_false_elim in H. destruct H as [Hc Hs].
    rewrite Hc, (IH Hs). reflexivity.
Qed.

Lemma split_app (sep : ascii) (p rest : string) :
  PyText.mem_char sep p = false ->
  PyText.split sep (p ++ String sep rest) = p :: PyText.split sep rest.
Proof.
  induction p as [|c p IH]; cbn [PyText.mem_char]; intros H.
  - cbn. rewrite Ascii.eqb_refl. reflexivity.
  - apply orb_false_elim in H. destruct H as [Hc Hp].
    change (String c p ++ String sep rest)
      with (String c (p ++ String sep rest)).
    cbn [PyText.split]. rewrite Hc, (IH Hp). reflexivity.
Qed.

(** Splitting undoes joining, for pieces free of the separator. *)
Lemma split_join (sep : ascii) (pieces : list string) :
  pieces <> [] ->
  Forall (fun p => PyText.mem_char sep p = false) pieces ->
  PyText.split sep (PyText.join (String sep "") pieces) = pieces.
Proof.
  intros Hne Hfree. induction Hfree as [|p pieces Hp Hfree IH];
    [contradiction|].
  destruct pieces as [|q pieces].
  - cbn. apply split_free, Hp.
  - change (PyText.join (String sep "") (p :: q :: pieces))
      with (p ++ String sep (PyText.join (String sep "") (q :: pieces))).
    rewrite (split_app sep p _ Hp), IH; [reflexivity|discriminate].
Qed.

Lemma lstrip_head (s : string) :
  match PyText.lstrip s with
  | EmptyString => True
  | String c _ => PyText.is_space c = false
  end.
Proof.
  induction s as [|c s IH]; cbn [PyText.lstrip]; [exact I|].
  destruct (PyText.is_space c) eqn:Hc; [exact IH|exact Hc].
Qed.

Lemma rstrip_cons (c : ascii) (s : string) :
  PyText.rstrip (String c s)
  = match PyText.rstrip s with
    | EmptyString =>
        if PyText.is_space c then EmptyString else String c EmptyString
    | String _ _ as kept => String c kept
    end.
Proof. reflexivity. Qed.

Lemma rstrip_idem (s : string) :
  PyText.rstrip (PyText.rstrip s) = PyText.rstrip s.
Proof.
  induction s as [|c s IH]; [reflexivity|]. rewrite (rstrip_cons c s).
  destruct (PyText.rstrip s) as [|d kept] eqn:Hs.
  - destruct (PyText.is_space c) eqn:Hc; [reflexivity|].
    cbn. rewrite Hc. reflexivity.
  - rewrite rstrip_cons, IH. reflexivity.
Qed.

Lemma rstrip_keeps_head (c : ascii) (s : string) :
  PyText.is_space c = false ->
  exists kept, PyText.rstrip (String c s) = String c kept.
Proof.
  intros Hc. cbn [PyText.rstrip].
  destruct (PyText.rstrip s) as [|d kept]; [rewrite Hc|]; eauto.
Qed.

Lemma lstrip_fixed (c : ascii) (s : string) :
  PyText.is_space c = false -> PyText.lstrip (String c s) = String c s.
Proof. intros Hc. cbn. rewrite Hc. reflexivity. Qed.

Lemma strip_idem (s : string) :
  PyText.strip (PyText.strip s) = PyText.strip s.
Proof.
  unfold PyText.strip. pose proof (lstrip_head s) as Hhead.
  destruct (PyText.lstrip s) as [|c rest]; [reflexivity|].
  destruct (rstrip_keeps_head c rest Hhead) as (kept & Hkept).
  rewrite Hkept, (lstrip_fixed c kept Hhead), <- Hkept.
  apply rstrip_idem.
Qed.

Lemma lstrip_free (c : ascii) (s : string) :
  PyText.mem_char c s = false -> PyText.mem_char c (PyText.lstrip s) = false.
Proof.
  induction s as [|d s IH]; cbn [PyText.lstrip PyText.mem_char];
    [reflexivity|].
  intros H. destruct (PyText.is_space d).
  - apply orb_false_elim in H. apply IH, H.
  - exact H.
Qed.

Lemma rstrip_free (c : ascii) (s : string) :
  PyText.mem_char c s = false -> PyText.mem_char c (PyText.rstrip s) = false.
Proof.
  induction s as [|d s IH]; cbn [PyText.rstrip PyText.mem_char];
    [reflexivity|].
  intros H. apply orb_false_elim in H. destruct H as [Hd Hs].
  specialize (IH Hs).
  destruct (PyText.rstrip s) as [|e kept].
  - destruct (PyText.is_space d); cbn; [reflexivity|].
    rewrite Hd. reflexivity.
  - cbn [PyText.mem_char]. rewrite Hd. exact IH.
Qed.

Lemma strip_free (c : ascii) (s : string) :
  PyText.mem_char c s = false -> PyText.mem_char c (PyText.strip s) = false.
Proof. intros H. apply rstrip_free, lstrip_free, H. Qed.

Lemma truthy_str_iff (s : string) : truthy s = true <-> s <> "".
Proof. destruct s; cbn; split; congruence. Qed.

Lemma map_filter_strip (pieces : list string) :
  map PyText.strip (filter (fun t => truthy (PyText.strip t)) pieces)
  = filter (fun t => truthy t) (map PyText.strip pieces).
Proof.
  induction pieces as [|p pieces IH]; cbn [map filter]; [reflexivity|].
  destruct (truthy (PyText.strip p)); cbn [map]; rewrite IH; reflexivity.
Qed.

(** What the tool makes of a comma-joined list of pieces. *)
Lemma tech_list_join (pieces : list string) :
  Forall (fun p => PyText.mem_char "," p = false) pieces ->
  McpServer.tech_list (PyText.join "," pieces)
  = filter (fun t => truthy t) (map PyText.strip pieces).
Proof.
  intros Hfree. unfold McpServer.tech_list.
  destruct (PyText.join "," pieces) as [|c joined] eqn:Hjoin.
  - destruct pieces as [|p [|q pieces]]; cbn in Hjoin |- *.
    + reflexivity.
    + subst p. reflexivity.
    + destruct p; discriminate Hjoin.
  - cbn [truthy Truthy_str]. rewrite <- Hjoin, map_filter_strip.
    rewrite split_join; [reflexivity| |exact Hfree].
    intros ->. discriminate Hjoin.
Qed.

Lemma filter_strip_clean (l : list string) :
  Forall clean_entry l ->
  filter (fun t => truthy t) (map PyText.strip l) = l.
Proof.
  induction 1 as [|t l (Hne & Hstrip & _) _ IH]; cbn [map filter];
    [reflexivity|].
  rewrite Hstrip, IH. apply truthy_str_iff in Hne. rewrite Hne. reflexivity.
Qed.

Lemma join_comma_space (l : list string) :
  PyText.join ", " l = PyText.join "," (pad_rest l).
Proof.
  destruct l as [|t rest]; [reflexivity|]. revert t.
  induction rest as [|u rest IH]; intros t; [reflexivity|].
  change (PyText.join ", " (t :: u :: rest))
    with (t ++ ", " ++ PyText.join ", " (u :: rest)).
  rewrite (IH u). destruct rest; reflexivity.
Qed.

(** X9. Every entry the tool passes on as a technology is non-empty, has
    no whitespace at either end and holds no comma; the list is empty
    exactly when every comma-separated piece of the argument is blank. *)
Theorem tech_list_entries_clean (technologies : string) :
  Forall clean_entry (McpServer.tech_list technologies)
  /\ (McpServer.tech_list technologies = [] <->
      Forall (fun p => PyText.strip p = "")
        (PyText.split "," technologies)).
Proof.
  unfold McpServer.tech_list.
  destruct technologies as [|c rest].
  - split; [constructor|]. split; [repeat constructor|reflexivity].
  - cbn [truthy Truthy_str].
    pose proof (split_pieces_free "," (String c rest)) as Hfree.
    induction Hfree as [|p pieces Hp Hfree [IHclean IHnil]];
      cbn [filter map].
    + split; [constructor|]. split; [constructor|reflexivity].
    + destruct (PyText.strip p) as [|d kept] eqn:Hstrip; cbn [truthy Truthy_str].
      * split; [exact IHclean|]. rewrite IHnil. split.
        -- intros H. constructor; [exact Hstrip|exact H].
        -- intros H. inversion H; assumption.
      * cbn [map]. split.
        -- constructor; [|exact IHclean]. rewrite Hstrip. split; [discriminate|].
           split; [rewrite <- Hstrip; apply strip_idem|].
           rewrite <- Hstrip. apply strip_free, Hp.
        -- split; [discriminate|]. intros H. inversion H; congruence.
Qed.

(** X10. Parsing undoes joining: a list of clean entries joined by commas,
    or by a comma and a space, is read back entry for entry. *)
Theorem tech_list_join_roundtrip (l : list string) :
  Forall clean_entry l ->
  McpServer.tech_list (PyText.join "," l) = l
  /\ McpServer.tech_list (PyText.join ", " l) = l.
Proof.
  intros Hclean.
  assert (Hfree : Forall (fun p => PyText.mem_char "," p = false) l).
  { apply (Forall_impl _ (P := clean_entry)); [|exact Hclean].
    intros t (_ & _ & H). exact H. }
  split.
  - rewrite (tech_list_join l Hfree). apply filter_strip_clean, Hclean.
  - rewrite join_comma_space, tech_list_join.
    + clear Hfree. destruct Hclean as [|t rest Ht Hrest]; [reflexivity|].
      cbn [pad_rest map filter]. destruct Ht as (Hne & Hstrip & _).
      rewrite Hstrip. apply truthy_str_iff in Hne. rewrite Hne. f_equal.
      rewrite map_map.
      induction Hrest as [|u rest (Hu & Hustrip & _) _ IH]; cbn [map filter];
        [reflexivity|].
      change (PyText.strip (String " " u)) with (PyText.strip u).
      rewrite Hustrip, IH. apply truthy_str_iff in Hu. rewrite Hu.
      reflexivity.
    + destruct Hfree as [|t rest Ht Hrest]; [constructor|].
      cbn [pad_rest]. constructor; [exact Ht|].
      apply Forall_map. apply (Forall_impl _ (P := fun p => PyText.mem_char "," p = false)); [|exact Hrest].
      intros p Hp. exact Hp.
Qed.

Lemma tech_list_join_roundtrip_witness :
  McpServer.tech_list
    (PyText.join "," ["PHP/5.6"; "jQuery/1.12"; "Apache Tomcat"])
  = ["PHP/5.6"; "jQuery/1.12"; "Apache Tomcat"]
  /\ McpServer.tech_list
       (PyText.join ", " ["PHP/5.6"; "jQuery/1.12"; "Apache Tomcat"])
     = ["PHP/5.6"; "jQuery/1.12"; "Apache Tomcat"].
Proof.
  apply tech_list_join_roundtrip.
  repeat constructor; discriminate.
Defined.


(* ===================================================================== *)
(** ** The what-if tool *)
(* ===================================================================== *)

Lemma score_run_bounds (self : RiskCalculator) (w : WebServiceData) :
  20 <= Z.min (BASE_SCORE + sum_points (fired self w)) 100 <= 100.
Proof.
  pose proof (sum_points_nonneg (fired self w)). unfold BASE_SCORE. lia.
Qed.

Lemma classify_risk_levels (s : Z) :
  In (McpServer.classify_risk s) ["critical"; "high"; "medium"; "low"].
Proof.
  unfold McpServer.classify_risk. case_thresholds; cbn; tauto.
Qed.

(** A result depends on the signal only through the rules that fire and
    the factors they append. *)
Lemma calculate_score_ext (self : RiskCalculator) (w1 w2 : WebServiceData) :
  (forall rl, fires self w1 rl = fires self w2 rl) ->
  (forall rl, fires self w1 rl = true ->
              factor_of self w1 rl = factor_of self w2 rl) ->
  calculate_score self w1 = calculate_score self w2.
Proof.
  intros Hfires Hfactor. rewrite !calculate_score_run.
  assert (Hfired : fired self w1 = fired self w2).
  { unfold fired. apply filter_ext, Hfires. }
  rewrite <- Hfired. do 2 f_equal.
  apply map_ext_in. intros rl Hin. apply Hfactor.
  unfold fired in Hin. apply filter_In in Hin. apply Hin.
Qed.

(** Empty strings and an empty list score like absent fields. *)
Lemma calculate_score_or_none (self : RiskCalculator) (u : string) (sc : Z)
    (t s : string) (techs : list string) :
  calculate_score self (mkWebServiceData u sc (or_none t) (or_none s)
                          (or_none techs))
  = calculate_score self (mkWebServiceData u sc (Some t) (Some s)
                            (Some techs)).
Proof.
  apply calculate_score_ext.
  - intros rl.
    destruct rl, t as [|ct t], s as [|cs s], techs as [|tech techs];
      reflexivity.
  - intros rl Hrl.
    destruct rl, t as [|ct t], s as [|cs s], techs as [|tech techs];
      try reflexivity; discriminate Hrl.
Qed.

(** X11. The what-if tool never takes its error branch.  Whatever the
    arguments, it replies with the url, the score of [calculate_score] on
    the normalised signal, between 20 and 100, the level [classify_risk]
    gives that score, and one dict per factor; turning empty arguments
    into absent fields does not change the score; the calculator it used
    stays in the global for the next call. *)
Theorem calculate_risk_score_always_replies (st : option RiskCalculator)
    (u : string) (sc : Z) (server_arg title_arg technologies_arg : string) :
  let calc := fst (McpServer.get_risk_calculator st) in
  exists r,
    calculate_score calc
      (mkWebServiceData u sc (or_none title_arg) (or_none server_arg)
         (or_none (McpServer.tech_list technologies_arg))) = Ok r
    /\ McpServer.calculate_risk_score st u sc server_arg title_arg
         technologies_arg
       = (McpServer.Reply
            (VDict [ ("url", VStr u);
                     ("risk_score", VInt (score r));
                     ("risk_level", VStr (McpServer.classify_risk (score r)));
                     ("factors",
                      VList (map (fun f => VDict (factor_dict f))
                               (factors r))) ]),
          Some calc)
    /\ 20 <= score r <= 100
    /\ In (McpServer.classify_risk (score r))
         ["critical"; "high"; "medium"; "low"]
    /\ calculate_score calc
         (mkWebServiceData u sc (Some title_arg) (Some server_arg)
            (Some (McpServer.tech_list technologies_arg))) = Ok r
    /\ McpServer.get_risk_calculator (Some calc) = (calc, Some calc).
Proof.
  cbv zeta. eexists. split; [apply calculate_score_run|].
  split; [|split; [|split; [|split]]].
  - unfold McpServer.calculate_risk_score.
    destruct st as [calc|]; cbn [McpServer.get_risk_calculator fst];
      rewrite calculate_score_run; reflexivity.
  - apply score_run_bounds.
  - apply classify_risk_levels.
  - rewrite <- calculate_score_or_none. apply calculate_score_run.
  - reflexivity.
Qed.

(* ===================================================================== *)
(** ** Scores recomputed from stored factors *)
(* ===================================================================== *)

Lemma sum_contribution_items_factor_dicts (fs : list RiskFactor) (acc : Z) :
  SeedDemo.sum_contribution_items (map factor_dict fs) acc
  = inr (acc + sum_contributions fs).
Proof.
  revert acc. induction fs as [|f fs IH]; intros acc;
    cbn [map SeedDemo.sum_contribution_items sum_contributions fold_right].
  - f_equal. lia.
  - change (PyDict.item (factor_dict f) "contribution")
      with (@inr raised pyval (VInt (contribution f))).
    cbn iota. rewrite IH. f_equal.
    fold (sum_contributions fs). lia.
Qed.

Lemma sum_contribution_items_app (fs : list RiskFactor)
    (rest : list (PyDict.dict pyval)) (acc : Z) :
  SeedDemo.sum_contribution_items (map factor_dict fs ++ rest)%list acc
  = SeedDemo.sum_contribution_items rest (acc + sum_contributions fs).
Proof.
  revert acc. induction fs as [|f fs IH]; intros acc;
    cbn [map List.app SeedDemo.sum_contribution_items sum_contributions
         fold_right].
  - f_equal. lia.
  - change (PyDict.item (factor_dict f) "contribution")
      with (@inr raised pyval (VInt (contribution f))).
    cbn iota. rewrite IH. f_equal.
    fold (sum_contributions fs). lia.
Qed.

(** X12. The factor dicts a scan stores always recompute the stored
    score: [calculate_score_from_factors] of the seeder, applied to the
    [factors_dict] of a calculated result, returns that result's score. *)
Theorem stored_factors_recompute_score (self : RiskCalculator)
    (w : WebServiceData) :
  exists r,
    calculate_score self w = Ok r
    /\ SeedDemo.calculate_score_from_factors (RunScan.factors_dict r)
       = inr (score r).
Proof.
  eexists. split; [apply calculate_score_run|].
  unfold SeedDemo.calculate_score_from_factors, RunScan.factors_dict.
  cbn [factors score].
  rewrite sum_contribution_items_factor_dicts, sum_contributions_factor_of.
  reflexivity.
Qed.

(** X13. [calculate_score_from_factors] at its edges: no factors give the
    base 20; whatever it returns is at most 100; after well-formed dicts,
    a dict without the key [contribution] raises [KeyError]; one whose
    [contribution] is [None], a string, a list or a dict raises
    [TypeError]; one whose [contribution] is a bool counts it as 1 or 0. *)
Theorem calculate_score_from_factors_edges (before : list RiskFactor)
    (d : PyDict.dict pyval) (after : list (PyDict.dict pyval)) :
  SeedDemo.calculate_score_from_factors [] = inr 20
  /\ (forall ds total,
         SeedDemo.calculate_score_from_factors ds = inr total ->
         total <= 100)
  /\ (PyDict.get d "contribution" = None ->
      SeedDemo.calculate_score_from_factors
        (map factor_dict before ++ d :: after)%list
      = inl (KeyError "contribution"))
  /\ (forall v,
         PyDict.get d "contribution" = Some v ->
         v = VNone \/ (exists s, v = VStr s) \/ (exists items, v = VList items)
         \/ (exists entries, v = VDict entries) ->
         SeedDemo.calculate_score_from_factors
           (map factor_dict before ++ d :: after)%list
         = inl (Raised TypeError))
  /\ (forall b,
         PyDict.get d "contribution" = Some (VBool b) ->
         SeedDemo.calculate_score_from_factors
           (map factor_dict before ++ [d])%list
         = inr (Z.min (20 + (sum_contributions before + Z.b2z b)) 100)).
Proof.
  split; [reflexivity|]. split; [|split; [|split]].
  - intros ds total. unfold SeedDemo.calculate_score_from_factors.
    destruct (SeedDemo.sum_contribution_items ds 0) as [e|s];
      [discriminate|].
    intros H. injection H as <-. lia.
  - intros Hmissing. unfold SeedDemo.calculate_score_from_factors.
    rewrite sum_contribution_items_app.
    cbn [SeedDemo.sum_contribution_items]. unfold PyDict.item.
    rewrite Hmissing. reflexivity.
  - intros v Hv Hkind. unfold SeedDemo.calculate_score_from_factors.
    rewrite sum_contribution_items_app.
    cbn [SeedDemo.sum_contribution_items]. unfold PyDict.item.
    rewrite Hv.
    destruct Hkind as [->|[(s & ->)|[(items & ->)|(entries & ->)]]];
      reflexivity.
  - intros b Hb. unfold SeedDemo.calculate_score_from_factors.
    rewrite sum_contribution_items_app.
    cbn [SeedDemo.sum_contribution_items]. unfold PyDict.item.
    rewrite Hb. reflexivity.
Qed.

Lemma calculate_score_from_factors_edges_witness :
  SeedDemo.calculate_score_from_factors
    (map factor_dict staging_factors
       ++ [[("name", VStr "Directory Listing")]])%list
  = inl (KeyError "contribution")
  /\ SeedDemo.calculate_score_from_factors
       (map factor_dict staging_factors
          ++ [[("name", VStr "Directory Listing");
               ("contribution", VStr "10")]])%list
     = inl (Raised TypeError)
  /\ SeedDemo.calculate_score_from_factors
       (map factor_dict [] ++ [[("contribution", VBool true)]])%list
     = inr 21.
Proof.
  split; [|split].
  - destruct (calculate_score_from_factors_edges staging_factors
                [("name", VStr "Directory Listing")] [])
      as (_ & _ & Hkey & _).
    apply Hkey. reflexivity.
  - destruct (calculate_score_from_factors_edges staging_factors
                [("name", VStr "Directory Listing");
                 ("contribution", VStr "10")] [])
      as (_ & _ & _ & Htype & _).
    apply (Htype (VStr "10")).
    + reflexivity.
    + right. left. exists "10". reflexivity.
  - destruct (calculate_score_from_factors_edges []
                [("contribution", VBool true)] [])
      as (_ & _ & _ & _ & Hbool).
    apply (Hbool true). reflexivity.
Defined.

(* ===================================================================== *)
(** ** Dicts: lookup after update *)
(* ===================================================================== *)

Section DictFacts.

Context {V : Type}.
Implicit Types (d : PyDict.dict V) (k : string) (v : V).

Lemma get_set_same d k v : PyDict.get (PyDict.set d k v) k = Some v.
Proof.
  induction d as [|[k' v'] d IH]; cbn [PyDict.set PyDict.get].
  - rewrite String.eqb_refl. reflexivity.
  - destruct (String.eqb k' k) eqn:Hk; cbn [PyDict.get]; rewrite Hk;
      [reflexivity|exact IH].
Qed.

Lemma get_set_other d k k' v :
  k <> k' -> PyDict.get (PyDict.set d k v) k' = PyDict.get d k'.
Proof.
  intros Hne. induction d as [|[k0 v0] d IH]; cbn [PyDict.set PyDict.get].
  - destruct (String.eqb_spec k k'); [contradiction|reflexivity].
  - destruct (String.eqb_spec k0 k) as [->|Hk0]; cbn [PyDict.get].
    + destruct (String.eqb_spec k k'); [contradiction|reflexivity].
    + rewrite IH. reflexivity.
Qed.

Lemma get_none_iff d k : PyDict.get d k = None <-> ~ In k (PyDict.keys d).
Proof.
  induction d as [|[k' v'] d IH]; cbn [PyDict.get PyDict.keys map fst In].
  - tauto.
  - destruct (String.eqb_spec k' k) as [->|Hne].
    + split; [discriminate|]. intros H. exfalso. apply H. left. reflexivity.
    + rewrite IH. unfold PyDict.keys. tauto.
Qed.

Lemma keys_set_present d k v :
  In k (PyDict.keys d) -> PyDict.keys (PyDict.set d k v) = PyDict.keys d.
Proof.
  induction d as [|[k' v'] d IH]; cbn [PyDict.set PyDict.keys map fst In];
    [contradiction|].
  intros Hin. destruct (String.eqb_spec k' k) as [->|Hne]; [reflexivity|].
  cbn [map fst]. f_equal. apply IH. destruct Hin; [contradiction|assumption].
Qed.

Lemma keys_set_absent d k v :
  ~ In k (PyDict.keys d) ->
  PyDict.keys (PyDict.set d k v) = (PyDict.keys d ++ [k])%list.
Proof.
  induction d as [|[k' v'] d IH]; cbn [PyDict.set PyDict.keys map fst In];
    [reflexivity|].
  intros Hin. destruct (String.eqb_spec k' k) as [->|Hne]; [tauto|].
  cbn [map fst List.app]. f_equal. apply IH. tauto.
Qed.

End DictFacts.

Lemma sum_values_set_present (d : PyDict.dict Z) (k : string) (n v : Z) :
  PyDict.get d k = Some n ->
  sum_values (PyDict.set d k v) = sum_values d - n + v.
Proof.
  unfold sum_values, PyDict.values.
  induction d as [|[k' v'] d IH];
    cbn [PyDict.get PyDict.set map snd fold_right]; [discriminate|].
  destruct (String.eqb k' k); cbn [map snd fold_right].
  - intros [= ->]. lia.
  - intros H. rewrite (IH H). lia.
Qed.

Lemma sum_values_set_absent (d : PyDict.dict Z) (k : string) (v : Z) :
  PyDict.get d k = None -> sum_values (PyDict.set d k v) = sum_values d + v.
Proof.
  unfold sum_values, PyDict.values.
  induction d as [|[k' v'] d IH];
    cbn [PyDict.get PyDict.set map snd fold_right]; [lia|].
  destruct (String.eqb k' k); cbn [map snd fold_right]; [discriminate|].
  intros H. rewrite (IH H). lia.
Qed.

(** One step of a counting loop, [d[k] += 1], on a key that is there. *)
Lemma increment_present (d : PyDict.dict Z) (k : string) :
  In k (PyDict.keys d) ->
  exists n,
    PyDict.item d k = inr n
    /\ PyDict.keys (PyDict.set d k (n + 1)) = PyDict.keys d
    /\ (forall k', PyDict.get (PyDict.set d k (n + 1)) k'
                   = if String.eqb k' k then Some (n + 1)
                     else PyDict.get d k')
    /\ sum_values (PyDict.set d k (n + 1)) = sum_values d + 1.
Proof.
  intros Hin. unfold PyDict.item.
  destruct (PyDict.get d k) as [n|] eqn:Hget.
  - exists n. split; [reflexivity|]. split; [apply keys_set_present, Hin|].
    split.
    + intros k'. destruct (String.eqb_spec k' k) as [->|Hne].
      * apply get_set_same.
      * apply get_set_other. congruence.
    + rewrite (sum_values_set_present d k n _ Hget). lia.
  - apply get_none_iff in Hget. contradiction.
Qed.

(* ===================================================================== *)
(** ** The dashboard's risk distribution *)
(* ===================================================================== *)

Lemma get_risk_level_label (score : option Z) :
  In (fst (UiApp.get_risk_level score))
    ["Critical"; "High"; "Medium"; "Low"; "Unknown"].
Proof.
  unfold UiApp.get_risk_level. destruct score as [s|]; [|cbn; tauto].
  case_thresholds; cbn; tauto.
Qed.

Lemma count_level_cons (level : string) (svc : GraphModels.WebService)
    (services : list GraphModels.WebService) :
  Z.of_nat (count_level level (svc :: services))
  = (if String.eqb (fst (UiApp.get_risk_level (GraphModels.risk_score svc)))
          level
     then 1 else 0)
    + Z.of_nat (count_level level services).
Proof.
  unfold count_level. cbn [filter].
  destruct (String.eqb _ level); cbn [List.length]; lia.
Qed.

Lemma count_levels_run (services : list GraphModels.WebService)
    (acc : PyDict.dict Z) :
  (forall level, In level ["Critical"; "High"; "Medium"; "Low"; "Unknown"] ->
                 In level (PyDict.keys acc)) ->
  exists d,
    UiApp.count_levels services acc = inr d
    /\ PyDict.keys d = PyDict.keys acc
    /\ (forall level,
           PyDict.get d level
           = match PyDict.get acc level with
             | Some n => Some (n + Z.of_nat (count_level level services))
             | None => None
             end)
    /\ sum_values d = sum_values acc + Z.of_nat (List.length services).
Proof.
  revert acc. induction services as [|svc services IH]; intros acc Hkeys.
  - exists acc. split; [reflexivity|]. split; [reflexivity|]. split.
    + intros level.
      destruct (PyDict.get acc level); [f_equal; cbn; lia|reflexivity].
    + cbn. lia.
  - cbn [UiApp.count_levels].
    pose proof (get_risk_level_label (GraphModels.risk_score svc)) as Hlabel.
    assert (Hcons := fun level => count_level_cons level svc services).
    destruct (UiApp.get_risk_level (GraphModels.risk_score svc))
      as [label color]. cbn [fst] in Hlabel, Hcons.
    destruct (increment_present acc label (Hkeys label Hlabel))
      as (n & Hitem & Hk & Hget & Hsum).
    rewrite Hitem.
    destruct (IH (PyDict.set acc label (n + 1)))
      as (d & Hrun & Hdk & Hdget & Hdsum).
    { intros level Hlevel. rewrite Hk. apply Hkeys, Hlevel. }
    exists d. split; [exact Hrun|]. split; [congruence|]. split.
    + intros level. rewrite Hdget, Hget, Hcons.
      rewrite (String.eqb_sym label level).
      destruct (String.eqb_spec level label) as [->|Hne].
      * unfold PyDict.item in Hitem.
        destruct (PyDict.get acc label); [|discriminate Hitem].
        injection Hitem as ->. f_equal. lia.
      * destruct (PyDict.get acc level); [f_equal|reflexivity].
    + rewrite Hdsum, Hsum. cbn [List.length]. lia.
Qed.

(** X14. [get_risk_distribution] never meets a missing key.  It returns
    the five levels in their fixed order, each with the number of services
    [get_risk_level] puts there, and the counts add up to the number of
    services. *)
Theorem get_risk_distribution_counts
    (services : list GraphModels.WebService) :
  exists d,
    UiApp.get_risk_distribution services = inr d
    /\ PyDict.keys d = ["Critical"; "High"; "Medium"; "Low"; "Unknown"]
    /\ (forall level, In level (PyDict.keys d) ->
        PyDict.get d level = Some (Z.of_nat (count_level level services)))
    /\ sum_values d = Z.of_nat (List.length services).
Proof.
  unfold UiApp.get_risk_distribution.
  destruct (count_levels_run services
              [("Critical", 0); ("High", 0); ("Medium", 0); ("Low", 0);
               ("Unknown", 0)])
    as (d & Hrun & Hk & Hget & Hsum).
  { intros level Hlevel. exact Hlevel. }
  exists d. split; [exact Hrun|]. split; [exact Hk|]. split; [|exact Hsum].
  intros level Hin. rewrite Hk in Hin. rewrite Hget.
  cbn in Hin. destruct Hin as [<-|[<-|[<-|[<-|[<-|[]]]]]]; reflexivity.
Qed.

Lemma get_risk_distribution_counts_witness :
  exists d,
    UiApp.get_risk_distribution
      [GraphModels.mkWebService "https://a.example.com" 200 None None []
         (Some 75) None 0;
       GraphModels.mkWebService "https://b.example.com" 404 None None []
         None None 0] = inr d
    /\ PyDict.get d "Critical" = Some 1.
Proof.
  destruct (get_risk_distribution_counts
              [GraphModels.mkWebService "https://a.example.com" 200 None None
                 [] (Some 75) None 0;
               GraphModels.mkWebService "https://b.example.com" 404 None None
                 [] None None 0])
    as (d & Hrun & Hk & Hget & _).
  exists d. split; [exact Hrun|].
  apply (Hget "Critical"). rewrite Hk. left. reflexivity.
Defined.

(* ===================================================================== *)
(** ** The dashboard's technology counts *)
(* ===================================================================== *)

Lemma keys_set_in (d : PyDict.dict Z) (k k' : string) (v : Z) :
  In k' (PyDict.keys (PyDict.set d k v)) <-> In k' (PyDict.keys d) \/ k' = k.
Proof.
  destruct (PyDict.get d k) as [n|] eqn:Hget.
  - assert (Hin : In k (PyDict.keys d)).
    { destruct (in_dec string_dec k (PyDict.keys d)) as [H|H]; [exact H|].
      apply get_none_iff in H. congruence. }
    rewrite (keys_set_present d k v Hin). split; [tauto|].
    intros [H| ->]; assumption.
  - apply get_none_iff in Hget. rewrite (keys_set_absent d k v Hget).
    rewrite in_app_iff. cbn [In]. split.
    + intros [H|[H|[]]]; [left; exact H|right; symmetry; exact H].
    + intros [H|H]; [left; exact H|right; left; symmetry; exact H].
Qed.

Lemma nodup_keys_set (d : PyDict.dict Z) (k : string) (v : Z) :
  NoDup (PyDict.keys d) -> NoDup (PyDict.keys (PyDict.set d k v)).
Proof.
  induction d as [|[k' v'] d IH]; cbn [PyDict.set PyDict.keys map fst].
  - intros _. repeat constructor. intros [].
  - intros Hnd. inversion Hnd as [|? ? Hk' Hd]; subst.
    destruct (String.eqb_spec k' k) as [->|Hne]; cbn [map fst].
    + constructor; assumption.
    + constructor; [|apply IH, Hd].
      intros Hin. apply (keys_set_in d k k' v) in Hin.
      destruct Hin as [Hin|Heq]; [exact (Hk' Hin)|contradiction].
Qed.

Lemma get_default_set (d : PyDict.dict Z) (k k' : string) (v : Z) :
  PyDict.get_default (PyDict.set d k v) k' 0
  = if String.eqb k' k then v else PyDict.get_default d k' 0.
Proof.
  unfold PyDict.get_default. destruct (String.eqb_spec k' k) as [->|Hne].
  - rewrite get_set_same. reflexivity.
  - rewrite get_set_other by congruence. reflexivity.
Qed.

Lemma occurrences_cons (name tech : string) (techs : list string) :
  occurrences name (tech :: techs)
  = ((if truthy (PyText.strip tech) && String.eqb (PyText.strip tech) name
      then 1 else 0) + occurrences name techs)%nat.
Proof.
  unfold occurrences. cbn [filter].
  destruct (truthy (PyText.strip tech) && String.eqb (PyText.strip tech) name);
    reflexivity.
Qed.

Lemma occurrences_pos (name : string) (techs : list string) :
  (0 < occurrences name techs)%nat -> name <> "" /\ PyText.strip name = name.
Proof.
  induction techs as [|tech techs IH]; [cbn; lia|].
  rewrite occurrences_cons.
  destruct (truthy (PyText.strip tech)) eqn:Htruthy; cbn [andb];
    [|exact IH].
  destruct (String.eqb_spec (PyText.strip tech) name) as [<-|Hne];
    [|exact IH].
  intros _. split; [apply truthy_str_iff, Htruthy|apply strip_idem].
Qed.

Lemma count_techs_get (techs : list string) (acc : PyDict.dict Z)
    (name : string) :
  PyDict.get_default (UiApp.count_techs techs acc) name 0
  = PyDict.get_default acc name 0 + Z.of_nat (occurrences name techs).
Proof.
  revert acc. induction techs as [|tech techs IH]; intros acc.
  - cbn. lia.
  - cbn [UiApp.count_techs]. rewrite occurrences_cons.
    destruct (truthy (PyText.strip tech)) eqn:Htruthy; cbn [andb].
    + rewrite IH, get_default_set, (String.eqb_sym name).
      destruct (String.eqb_spec (PyText.strip tech) name) as [<-|Hne]; lia.
    + rewrite IH. lia.
Qed.

Lemma count_techs_keys (techs : list string) (acc : PyDict.dict Z)
    (name : string) :
  In name (PyDict.keys (UiApp.count_techs techs acc)) <->
  In name (PyDict.keys acc) \/ (0 < occurrences name techs)%nat.
Proof.
  revert acc. induction techs as [|tech techs IH]; intros acc.
  - cbn. split; [tauto|]. intros [H|H]; [exact H|lia].
  - cbn [UiApp.count_techs]. rewrite occurrences_cons.
    destruct (truthy (PyText.strip tech)) eqn:Htruthy; cbn [andb].
    + rewrite IH, keys_set_in.
      destruct (String.eqb_spec (PyText.strip tech) name) as [<-|Hne].
      * split; [intros _; right; lia|intros _; left; right; reflexivity].
      * split; [intros [[H|H]|H]; [tauto|congruence|tauto]|].
        intros [H|H]; [tauto|right; exact H].
    + apply IH.
Qed.

Lemma count_techs_nodup (techs : list string) (acc : PyDict.dict Z) :
  NoDup (PyDict.keys acc) -> NoDup (PyDict.keys (UiApp.count_techs techs acc)).
Proof.
  revert acc. induction techs as [|tech techs IH]; intros acc Hnd;
    [exact Hnd|].
  cbn [UiApp.count_techs].
  destruct (truthy (PyText.strip tech)); apply IH;
    [apply nodup_keys_set|]; exact Hnd.
Qed.

Lemma count_techs_app (a b : list string) (acc : PyDict.dict Z) :
  UiApp.count_techs (a ++ b)%list acc
  = UiApp.count_techs b (UiApp.count_techs a acc).
Proof.
  revert acc. induction a as [|tech a IH]; intros acc; [reflexivity|].
  cbn [List.app UiApp.count_techs].
  destruct (truthy (PyText.strip tech)); apply IH.
Qed.

Lemma count_services_flat (services : list GraphModels.WebService)
    (acc : PyDict.dict Z) :
  UiApp.count_services services acc
  = UiApp.count_techs (flat_map GraphModels.technologies services) acc.
Proof.
  revert acc. induction services as [|svc services IH]; intros acc;
    [reflexivity|].
  cbn [UiApp.count_services flat_map]. rewrite count_techs_app. apply IH.
Qed.

(** X15. [get_technology_counts] maps each technology name to the number
    of entries, over all services, that read so once stripped; blank
    entries are not counted.  A name is a key exactly when it occurs, no
    key comes twice, and every key is non-empty and stripped. *)
Theorem get_technology_counts_counts
    (services : list GraphModels.WebService) :
  let counts := UiApp.get_technology_counts services in
  let techs := flat_map GraphModels.technologies services in
  (forall name,
      PyDict.get_default counts name 0 = Z.of_nat (occurrences name techs))
  /\ (forall name,
         In name (PyDict.keys counts) <-> (0 < occurrences name techs)%nat)
  /\ NoDup (PyDict.keys counts)
  /\ Forall (fun k => k <> "" /\ PyText.strip k = k) (PyDict.keys counts).
Proof.
  cbv zeta. unfold UiApp.get_technology_counts.
  rewrite count_services_flat.
  assert (Hkeys : forall name,
             In name (PyDict.keys
                        (UiApp.count_techs
                           (flat_map GraphModels.technologies services) []))
             <-> (0 < occurrences name
                        (flat_map GraphModels.technologies services))%nat).
  { intros name. rewrite count_techs_keys. cbn. tauto. }
  split; [|split; [exact Hkeys|split]].
  - intros name. rewrite count_techs_get. reflexivity.
  - apply count_techs_nodup. constructor.
  - apply Forall_forall. intros k Hk. apply Hkeys in Hk.
    exact (occurrences_pos k _ Hk).
Qed.

(* ===================================================================== *)
(** ** The MCP server's tally and listing *)
(* ===================================================================== *)

Lemma count_classified_cons (level : string) (score : Z) (scores : list Z) :
  Z.of_nat (count_classified level (score :: scores))
  = (if String.eqb (McpServer.classify_risk score) level then 1 else 0)
    + Z.of_nat (count_classified level scores).
Proof.
  unfold count_classified. cbn [filter].
  destruct (String.eqb _ level); cbn [List.length]; lia.
Qed.

Lemma tally_run (services : list GraphModels.WebService)
    (acc : PyDict.dict Z) (total : Z) :
  (forall level, In level ["critical"; "high"; "medium"; "low"] ->
                 In level (PyDict.keys acc)) ->
  exists d,
    McpServer.tally services acc total
    = inr (d, total + fold_right Z.add 0 (scores_of services))
    /\ PyDict.keys d = PyDict.keys acc
    /\ (forall level,
           PyDict.get d level
           = match PyDict.get acc level with
             | Some n =>
                 Some (n + Z.of_nat (count_classified level
                                       (scores_of services)))
             | None => None
             end)
    /\ sum_values d
       = sum_values acc + Z.of_nat (List.length (scores_of services)).
Proof.
  revert acc total.
  induction services as [|svc services IH]; intros acc total Hkeys.
  - exists acc. split; [cbn; do 2 f_equal; lia|]. split; [reflexivity|].
    split.
    + intros level.
      destruct (PyDict.get acc level); [f_equal; cbn; lia|reflexivity].
    + cbn. lia.
  - cbn [McpServer.tally scores_of flat_map].
    fold (scores_of services).
    destruct (GraphModels.risk_score svc) as [score|]; cbn [List.app].
    + destruct (increment_present acc (McpServer.classify_risk score)
                  (Hkeys _ (classify_risk_levels score)))
        as (n & Hitem & Hk & Hget & Hsum).
      rewrite Hitem.
      destruct (IH (PyDict.set acc (McpServer.classify_risk score) (n + 1))
                  (total + score))
        as (d & Hrun & Hdk & Hdget & Hdsum).
      { intros level Hlevel. rewrite Hk. apply Hkeys, Hlevel. }
      exists d. split.
      { rewrite Hrun. cbn [fold_right]. do 2 f_equal. lia. }
      split; [congruence|]. split.
      * intros level. rewrite Hdget, Hget, count_classified_cons.
        rewrite (String.eqb_sym (McpServer.classify_risk score) level).
        destruct (String.eqb_spec level (McpServer.classify_risk score))
          as [->|Hne].
        -- unfold PyDict.item in Hitem.
           destruct (PyDict.get acc (McpServer.classify_risk score));
             [|discriminate Hitem].
           injection Hitem as ->. f_equal. lia.
        -- destruct (PyDict.get acc level); [f_equal|reflexivity].
      * rewrite Hdsum, Hsum. cbn [List.length]. lia.
    + apply IH, Hkeys.
Qed.

Lemma scored_count_length (services : list GraphModels.WebService) :
  List.length
    (filter (fun s => match GraphModels.risk_score s with
                      | Some _ => true
                      | None => false
                      end) services)
  = List.length (scores_of services).
Proof.
  induction services as [|svc services IH]; [reflexivity|].
  cbn [filter scores_of flat_map]. fold (scores_of services).
  destruct (GraphModels.risk_score svc); cbn [List.length List.app];
    rewrite IH; reflexivity.
Qed.

(** X16. The tally of [get_risk_overview] never meets a missing key.  It
    returns the four levels in their fixed order, each with the number of
    scored services [classify_risk] puts there; the counts add up to the
    number of scored services, services without a score being skipped,
    and the total is the sum of the scores. *)
Theorem risk_overview_tally_counts (services : list GraphModels.WebService) :
  exists d,
    McpServer.get_risk_overview_tally services
    = inr (d, fold_right Z.add 0 (scores_of services),
           List.length (scores_of services))
    /\ PyDict.keys d = ["critical"; "high"; "medium"; "low"]
    /\ (forall level, In level (PyDict.keys d) ->
        PyDict.get d level
        = Some (Z.of_nat (count_classified level (scores_of services))))
    /\ sum_values d = Z.of_nat (List.length (scores_of services)).
Proof.
  unfold McpServer.get_risk_overview_tally.
  destruct (tally_run services
              [("critical", 0); ("high", 0); ("medium", 0); ("low", 0)] 0)
    as (d & Hrun & Hk & Hget & Hsum).
  { intros level Hlevel. exact Hlevel. }
  exists d. split; [rewrite Hrun, scored_count_length; reflexivity|].
  split; [exact Hk|]. split; [|exact Hsum].
  intros level Hin. rewrite Hk in Hin. rewrite Hget.
  cbn in Hin. destruct Hin as [<-|[<-|[<-|[<-|[]]]]]; reflexivity.
Qed.

Lemma risk_overview_tally_counts_witness :
  exists d,
    McpServer.get_risk_overview_tally
      [GraphModels.mkWebService "https://a.example.com" 200 None None []
         (Some 85) None 0;
       GraphModels.mkWebService "https://b.example.com" 404 None None []
         None None 0]
    = inr (d, 85, 1%nat)
    /\ PyDict.get d "critical" = Some 1.
Proof.
  destruct (risk_overview_tally_counts
              [GraphModels.mkWebService "https://a.example.com" 200 None None
                 [] (Some 85) None 0;
               GraphModels.mkWebService "https://b.example.com" 404 None None
                 [] None None 0])
    as (d & Hrun & Hk & Hget & _).
  exists d. split; [exact Hrun|].
  apply (Hget "critical"). rewrite Hk. left. reflexivity.
Defined.

(** X17. In the listing of [get_risky_assets] a service is [unknown]
    exactly when it has no score or the score 0; any other score gets its
    [classify_risk] level.  The tally of [get_risk_overview] reads a score
    of 0 differently: it counts the service as scored, under [low]. *)
Theorem zero_score_listed_unknown (svc : GraphModels.WebService) :
  (McpServer.asset_risk_level svc = "unknown" <->
   GraphModels.risk_score svc = None \/ GraphModels.risk_score svc = Some 0)
  /\ (forall score,
         GraphModels.risk_score svc = Some score -> score <> 0 ->
         McpServer.asset_risk_level svc = McpServer.classify_risk score)
  /\ (GraphModels.risk_score svc = Some 0 ->
      McpServer.get_risk_overview_tally [svc]
      = inr ([("critical", 0); ("high", 0); ("medium", 0); ("low", 1)],
             0, 1%nat)).
Proof.
  unfold McpServer.asset_risk_level.
  destruct (GraphModels.risk_score svc) as [score|] eqn:Hscore.
  - change (truthy (Some score)) with (negb (score =? 0)).
    destruct (Z.eqb_spec score 0) as [->|Hne]; cbn [negb].
    + split; [split; [intros _; right; reflexivity|reflexivity]|].
      split; [intros score [= <-] H; contradiction|].
      intros _. unfold McpServer.get_risk_overview_tally.
      cbn [McpServer.tally filter]. rewrite Hscore. reflexivity.
    + split; [|split].
      * split.
        -- intros H. pose proof (classify_risk_levels score) as Hl.
           rewrite H in Hl. cbn in Hl. exfalso.
           destruct Hl as [Hl|[Hl|[Hl|[Hl|[]]]]]; discriminate Hl.
        -- intros [H|[= H]]; [discriminate H|contradiction].
      * intros score' [= <-] _. reflexivity.
      * intros [= H]. contradiction.
  - split; [split; [intros _; left; reflexivity|reflexivity]|].
    split; [intros score H; discriminate H|intros H; discriminate H].
Qed.

Lemma zero_score_listed_unknown_witness :
  McpServer.asset_risk_level
    (GraphModels.mkWebService "https://a.example.com" 200 None None []
       (Some 0) None 0) = "unknown"
  /\ McpServer.get_risk_overview_tally
       [GraphModels.mkWebService "https://a.example.com" 200 None None []
          (Some 0) None 0]
     = inr ([("critical", 0); ("high", 0); ("medium", 0); ("low", 1)],
            0, 1%nat).
Proof.
  destruct (zero_score_listed_unknown
              (GraphModels.mkWebService "https://a.example.com" 200 None None
                 [] (Some 0) None 0))
    as (Hunknown & _ & Htally).
  split; [apply Hunknown; right; reflexivity|apply Htally; reflexivity].
Defined.

(* ===================================================================== *)
(** ** Target validation *)
(* ===================================================================== *)

Lemma str_in_iff (x : string) (l : list string) :
  Config.str_in x l = true <-> In x l.
Proof.
  unfold Config.str_in. rewrite existsb_exists. split.
  - intros (y & Hin & Heq). apply String.eqb_eq in Heq. subst y. exact Hin.
  - intros Hin. exists x. split; [exact Hin|apply String.eqb_refl].
Qed.

Lemma is_target_allowed_iff (settings : Config.Settings) (target : string) :
  Config.is_target_allowed settings target = true <->
  exists t, In t (Config.allowed_targets settings)
            /\ PyStr.lower t = PyStr.lower target.
Proof.
  unfold Config.is_target_allowed. rewrite str_in_iff, in_map_iff.
  split; intros (t & H1 & H2); exists t; tauto.
Qed.

Lemma validate_target_passes (settings : Config.Settings) (target : string) :
  RunScan.validate_target settings target = inr tt <->
  Config.is_target_allowed settings target = true.
Proof.
  unfold RunScan.validate_target.
  destruct (Config.is_target_allowed settings target); cbn [negb];
    split; congruence.
Qed.

Lemma length_app_str (a b : string) :
  String.length (a ++ b) = (String.length a + String.length b)%nat.
Proof. induction a as [|c a IH]; cbn; [reflexivity|]. rewrite IH. reflexivity. Qed.

Lemma lower_length (s : string) :
  String.length (PyStr.lower s) = String.length s.
Proof. induction s as [|c s IH]; cbn; [reflexivity|]. rewrite IH. reflexivity. Qed.

(** X18. [validate_target] passes exactly the targets that equal an
    allowed one up to case, so two spellings of a target fare alike;
    anything else raises with a message naming the target and the allowed
    list.  Under the default settings no name that merely ends in
    [example.com], a subdomain say, passes. *)
Theorem validate_target_exact_match (settings : Config.Settings)
    (target : string) :
  (RunScan.validate_target settings target = inr tt <->
   exists t, In t (Config.allowed_targets settings)
             /\ PyStr.lower t = PyStr.lower target)
  /\ (forall target',
         PyStr.lower target' = PyStr.lower target ->
         Config.is_target_allowed settings target'
         = Config.is_target_allowed settings target)
  /\ (Config.is_target_allowed settings target = false ->
      RunScan.validate_target settings target
      = inl ("Target '" ++ target ++ "' is not in allowed list."
               ++ RunScan.newline ++ "Allowed targets: "
               ++ PyText.join ", " (Config.allowed_targets settings)
               ++ RunScan.newline
               ++ "Add targets via ALLOWED_TARGETS environment variable."))
  /\ (forall prefix,
         prefix <> "" ->
         Config.is_target_allowed Config.default_settings
           (prefix ++ "example.com") = false).
Proof.
  split; [|split; [|split]].
  - rewrite validate_target_passes. apply is_target_allowed_iff.
  - intros target' Hsame. unfold Config.is_target_allowed.
    rewrite Hsame. reflexivity.
  - intros Hno. unfold RunScan.validate_target. rewrite Hno. reflexivity.
  - intros prefix Hne.
    destruct (Config.is_target_allowed Config.default_settings
                (prefix ++ "example.com")) eqn:Hallowed; [|reflexivity].
    apply is_target_allowed_iff in Hallowed.
    destruct Hallowed as (t & Hin & Heq).
    apply (f_equal String.length) in Heq.
    rewrite !lower_length, length_app_str in Heq.
    destruct prefix as [|c prefix]; [contradiction|].
    cbn in Hin, Heq. destruct Hin as [<-|[<-|[]]]; cbn in Heq; lia.
Qed.

Lemma validate_target_exact_match_witness :
  Config.is_target_allowed Config.default_settings "api.example.com" = false
  /\ Config.is_target_allowed Config.default_settings "EXAMPLE.com"
     = Config.is_target_allowed Config.default_settings "example.COM".
Proof.
  destruct (validate_target_exact_match Config.default_settings "example.COM")
    as (_ & Hcase & _ & Hprefix).
  split.
  - apply (Hprefix "api."). discriminate.
  - apply Hcase. reflexivity.
Defined.

(* ===================================================================== *)
(** ** Outdated banners disclose their version *)
(* ===================================================================== *)

Lemma lower_char_slash (c : ascii) : PyStr.lower_char c = "/"%char -> c = "/"%char.
Proof.
  destruct c as [[] [] [] [] [] [] [] []]; intros H;
    try reflexivity; discriminate H.
Qed.

Lemma lower_char_digit (c : ascii) :
  Re.is_digit (PyStr.lower_char c) = true -> Re.is_digit c = true.
Proof.
  destruct c as [[] [] [] [] [] [] [] []]; intros H;
    try reflexivity; discriminate H.
Qed.

Lemma lower_split (s a b : string) :
  PyStr.lower s = a ++ b ->
  exists a' b', s = a' ++ b' /\ PyStr.lower a' = a /\ PyStr.lower b' = b.
Proof.
  revert s. induction a as [|c a IH]; intros s H.
  - exists "", s. repeat split. exact H.
  - destruct s as [|d s]; [discriminate H|].
    cbn in H. injection H as Hc Hrest.
    destruct (IH s Hrest) as (a' & b' & -> & Ha & Hb).
    exists (String d a'), b'. repeat split; [|exact Hb].
    cbn. rewrite Hc, Ha. reflexivity.
Qed.

Lemma slash_digit_lower (s : string) :
  slash_digit (PyStr.lower s) -> slash_digit s.
Proof.
  intros (before & d & after & Heq & Hd).
  apply lower_split in Heq. destruct Heq as (a' & b' & -> & _ & Hb).
  destruct b' as [|c1 [|c2 rest]]; try discriminate Hb.
  cbn in Hb. injection Hb as Hc1 Hc2 _.
  apply lower_char_slash in Hc1. subst c1.
  exists a', c2, rest. split; [reflexivity|].
  apply lower_char_digit. rewrite Hc2. exact Hd.
Qed.

Lemma slash_digit_within (p before after : string) :
  slash_digit p -> slash_digit (before ++ p ++ after).
Proof.
  intros (x & d & y & -> & Hd).
  exists (before ++ x), d, (y ++ after). split; [|exact Hd].
  rewrite !app_assoc_str. reflexivity.
Qed.

Lemma outdated_patterns_versioned :
  Forall (fun e => slash_digit (fst e)) OUTDATED_TECHNOLOGIES.
Proof.
  unfold OUTDATED_TECHNOLOGIES.
  repeat (constructor; [apply search_slash_digit; reflexivity|]).
  constructor.
Qed.

Lemma first_pattern_in (table : list (string * string)) (text : string)
    (entry : string * string) :
  first_pattern table text = Some entry ->
  In entry table /\ PyStr.contains (fst entry) text = true.
Proof.
  intros H. apply first_pattern_hit in H.
  destruct H as (before & after & -> & Hin & _). split; [|exact Hin].
  apply in_or_app. right. left. reflexivity.
Qed.

(** X19. Every signature of the table holds a slash followed by a digit,
    so an Outdated Technology match found in the server header always
    comes with Version Disclosure, and such a service scores at least
    50. *)
Theorem server_hit_discloses_version (w : WebServiceData)
    (hit : string * string) :
  server_match OUTDATED_TECHNOLOGIES w = Some hit ->
  exists r,
    calculate_score __init__ w = Ok r
    /\ has_factor "Outdated Technology" r = true
    /\ has_factor "Version Disclosure" r = true
    /\ 50 <= score r.
Proof.
  intros Hhit.
  assert (Houtdated : fires __init__ w OutdatedTechnology = true).
  { cbn [fires]. rewrite outdated_match_unfold.
    cbn [_outdated_tech __init__]. rewrite Hhit. reflexivity. }
  assert (Hversion : fires __init__ w VersionDisclosure = true).
  { unfold server_match in Hhit. cbn [fires].
    destruct (server w) as [s|]; [|discriminate Hhit].
    destruct (truthy s); [|discriminate Hhit]. cbn [andb].
    apply first_pattern_in in Hhit. destruct Hhit as [Hin Hc].
    apply has_version_discloses, slash_digit_discloses, slash_digit_lower.
    apply contains_iff in Hc. destruct Hc as (before & after & ->).
    apply slash_digit_within.
    pose proof outdated_patterns_versioned as Hall.
    rewrite Forall_forall in Hall. exact (Hall hit Hin). }
  eexists. split; [apply calculate_score_run|].
  rewrite (has_factor_run __init__ w _ OutdatedTechnology),
    (has_factor_run __init__ w _ VersionDisclosure).
  split; [exact Houtdated|]. split; [exact Hversion|].
  cbn [score]. unfold fired, all_rules, BASE_SCORE. cbn [filter].
  rewrite Houtdated, Hversion.
  destruct (fires __init__ w LiveService),
    (fires __init__ w NonProductionExposed), (fires __init__ w NoHTTPS),
    (fires __init__ w DirectoryListing); cbn; lia.
Qed.

Lemma server_hit_discloses_version_witness :
  exists r,
    calculate_score __init__
      (mkWebServiceData "https://shop.example.com" 503 None
         (Some "Microsoft-IIS/6.0") None) = Ok r
    /\ has_factor "Outdated Technology" r = true
    /\ has_factor "Version Disclosure" r = true
    /\ 50 <= score r.
Proof.
  apply (server_hit_discloses_version _ ("iis/6", "IIS 6 is end-of-life")).
  reflexivity.
Defined.
